(** * SnipeITApi: a shallow embedding of the Snipe-IT REST client

    The Python class [SnipeAPI] (src/SnipeITApi.py) validates the arguments
    of each public method, assembles a payload dictionary and sends one HTTP
    request through a [requests.Session].  This development embeds

    - the Python values that cross the API ([pyval]),
    - the built-ins the code calls on them ([str], [str.lower], truthiness,
      [json.dumps], subscripting, iteration),
    - the validation helpers, [_add_to_dict], the five HTTP wrappers,
    - the resource methods,

    and states the properties of the specification over them.

    Conventions.
    - A Python [str] is the sequence of its code points; the model covers the
      code points U+0000..U+00FF, one [ascii] each.
    - A Python [int] is a [Z], a Python [float] an IEEE value [spec_float].
    - A [dict] with string keys is an association list in insertion order
      (the order [json.dumps] and [str] print).
    - A keyword argument left at its default is passed as [PNone].
    - Effects: every method is a computation [M A] over the log of requests
      sent so far; it may raise a Python exception.  What the server answers
      is a field of the client ([_session]).
    - Two library functions stay abstract ([pylib]): [repr] of a float and
      the parsing of a date by [strptime]. *)

From Stdlib Require Import ZArith List String Ascii Bool Lia.
From Stdlib Require Import DecimalString SpecFloat.
Import ListNotations.
Local Open Scope string_scope.
Local Open Scope Z_scope.

Set Implicit Arguments.
Set Warnings "-register-all".

(** ** Python values *)

Inductive pyval : Type :=
| PNone
| PBool (b : bool)
| PInt (z : Z)
| PFloat (f : spec_float)
| PStr (s : string)
| PList (l : list pyval)
| PDict (d : list (string * pyval)).

Definition dict := list (string * pyval).

(** [bool(v)]: the truth value Python gives to [v] in [if v] and [a and b]. *)
Definition truthy (v : pyval) : bool :=
  match v with
  | PNone => false
  | PBool b => b
  | PInt z => negb (z =? 0)
  | PFloat (S754_zero _) => false
  | PFloat _ => true
  | PStr s => negb (s =? "")%string
  | PList l => match l with [] => false | _ => true end
  | PDict d => match d with [] => false | _ => true end
  end.

(** ** Strings *)

Definition code (c : ascii) : N := N_of_ascii c.

(** The double quote and the backslash. *)
Definition dquote : ascii := "034"%char.
Definition bslash : ascii := "092"%char.

Definition hex_digit (n : N) : ascii :=
  if (n <? 10)%N then ascii_of_N (48 + n) else ascii_of_N (87 + n).

(** Two lowercase hexadecimal digits of a code point below 256. *)
Definition hex2 (c : ascii) : string :=
  String (hex_digit (code c / 16)) (String (hex_digit (code c mod 16)) "").

Fixpoint join (sep : string) (l : list string) : string :=
  match l with
  | [] => ""
  | [x] => x
  | x :: rest => x ++ sep ++ join sep rest
  end.

Fixpoint contains_char (c : ascii) (s : string) : bool :=
  match s with
  | EmptyString => false
  | String c' s' => Ascii.eqb c c' || contains_char c s'
  end.

(** [str.lower] on U+0000..U+00FF: A-Z and the Latin-1 capitals
    U+00C0..U+00DE (U+00D7, the multiplication sign, apart) move up by 32. *)
Definition lower_char (c : ascii) : ascii :=
  let n := code c in
  if ((65 <=? n) && (n <=? 90))%N then ascii_of_N (n + 32)
  else if ((192 <=? n) && (n <=? 222) && negb (n =? 215))%N then ascii_of_N (n + 32)
  else c.

Fixpoint lower (s : string) : string :=
  match s with
  | EmptyString => EmptyString
  | String c s' => String (lower_char c) (lower s')
  end.

(** [str.isprintable] of one code point below 256, as [repr] uses it. *)
Definition printable (c : ascii) : bool :=
  let n := code c in
  ((32 <=? n) && (n <=? 126) || (161 <=? n) && negb (n =? 173))%N.

Definition repr_char (quote : ascii) (c : ascii) : string :=
  if Ascii.eqb c quote || Ascii.eqb c bslash then String bslash (String c "")
  else if (code c =? 9)%N then "\t"
  else if (code c =? 10)%N then "\n"
  else if (code c =? 13)%N then "\r"
  else if printable c then String c ""
  else "\x" ++ hex2 c.

Fixpoint repr_chars (quote : ascii) (s : string) : string :=
  match s with
  | EmptyString => EmptyString
  | String c s' => repr_char quote c ++ repr_chars quote s'
  end.

(** [repr(s)] of a [str]: single quotes, unless the text has a single quote
    and no double quote. *)
Definition str_repr (s : string) : string :=
  let quote :=
    if contains_char "'"%char s && negb (contains_char dquote s)
    then dquote else "'"%char in
  String quote (repr_chars quote s ++ String quote "").

Definition str_of_Z (z : Z) : string := NilZero.string_of_int (Z.to_int z).

(** [json.dumps] of one character, with the default [ensure_ascii=True]. *)
Definition json_char (c : ascii) : string :=
  let n := code c in
  if (n =? 34)%N then String bslash (String dquote "")
  else if (n =? 92)%N then "\\"
  else if (n =? 10)%N then "\n"
  else if (n =? 13)%N then "\r"
  else if (n =? 9)%N then "\t"
  else if (n =? 8)%N then "\b"
  else if (n =? 12)%N then "\f"
  else if ((32 <=? n) && (n <=? 126))%N then String c ""
  else "\u00" ++ hex2 c.

Fixpoint json_chars (s : string) : string :=
  match s with
  | EmptyString => EmptyString
  | String c s' => json_char c ++ json_chars s'
  end.

Definition json_str (s : string) : string :=
  String dquote (json_chars s ++ String dquote "").

(** ** Exceptions, requests and the effect monad *)

(** The exceptions the client can raise.  [ValueError] carries its message
    (the validators build it); the messages of [TypeError], which only the
    interpreter and the standard library raise, are not modelled. *)
Inductive exn : Type :=
| ValueError (msg : string)
| TypeError
| KeyError (key : string).

Inductive outcome (A : Type) : Type :=
| Ret (a : A)
| Raise (e : exn).
Arguments Raise {A} e.

Inductive verb : Type := GET | POST | PUT | PATCH | DELETE.

(** One call on the [requests.Session]: [params] is the query argument of
    [session.get], [data] the body argument of the other verbs. *)
Record request : Type := mkRequest {
  req_verb : verb;
  req_url : string;
  req_params : option string;
  req_data : option string
}.

(** The log of the requests sent so far, oldest first. *)
Definition log := list request.

(** What the session answers: the parsed JSON body ([resp.json()]) of the
    response to a request, which may depend on the requests sent before. *)
Definition session := log -> request -> pyval.

Definition M (A : Type) : Type := log -> outcome A * log.

Definition ret {A} (a : A) : M A := fun t => (Ret a, t).

Definition raise {A} (e : exn) : M A := fun t => (Raise e, t).

Definition bind {A B} (c : M A) (k : A -> M B) : M B :=
  fun t =>
    match c t with
    | (Ret a, t') => k a t'
    | (Raise e, t') => (Raise e, t')
    end.

Declare Scope py_scope.
Delimit Scope py_scope with py.
Notation "x <- c ;; k" := (bind c (fun x => k))
  (at level 61, c at next level, right associativity) : py_scope.
Notation "c ;; k" := (bind c (fun _ => k))
  (at level 61, right associativity) : py_scope.
Local Open Scope py_scope.

(** [try: c except ValueError: h]. *)
Definition try_except_ValueError {A} (c : M A) (h : M A) : M A :=
  fun t =>
    match c t with
    | (Raise (ValueError _), t') => h t'
    | r => r
    end.

(** [for item in items: body(item)]. *)
Fixpoint for_each (items : list pyval) (body : pyval -> M unit) : M unit :=
  match items with
  | [] => ret tt
  | item :: rest => body item ;; for_each rest body
  end.

(** ** Types, subscripting, iteration *)

Inductive pytype : Type :=
| NoneType | bool_t | int_t | float_t | str_t | list_t | dict_t.

(** [type(v)]. *)
Definition type_of (v : pyval) : pytype :=
  match v with
  | PNone => NoneType
  | PBool _ => bool_t
  | PInt _ => int_t
  | PFloat _ => float_t
  | PStr _ => str_t
  | PList _ => list_t
  | PDict _ => dict_t
  end.

Definition pytype_eqb (a b : pytype) : bool :=
  match a, b with
  | NoneType, NoneType | bool_t, bool_t | int_t, int_t | float_t, float_t
  | str_t, str_t | list_t, list_t | dict_t, dict_t => true
  | _, _ => false
  end.

(** [v is None]. *)
Definition is_None (v : pyval) : bool :=
  match v with PNone => true | _ => false end.

(** Dictionary lookup and the assignment [d[k] = v]: an existing key keeps
    its place, a new key goes last. *)
Fixpoint dict_get (d : dict) (k : string) : option pyval :=
  match d with
  | [] => None
  | (k', v) :: rest => if (k' =? k)%string then Some v else dict_get rest k
  end.

Fixpoint dict_set (d : dict) (k : string) (v : pyval) : dict :=
  match d with
  | [] => [(k, v)]
  | (k', v') :: rest =>
      if (k' =? k)%string then (k, v) :: rest else (k', v') :: dict_set rest k v
  end.

(** [v[key]] for a string key: only a dict can be subscripted by a string. *)
Definition py_getitem (v : pyval) (key : string) : M pyval :=
  match v with
  | PDict d =>
      match dict_get d key with
      | Some x => ret x
      | None => raise (KeyError key)
      end
  | _ => raise TypeError
  end.

Fixpoint chars (s : string) : list pyval :=
  match s with
  | EmptyString => []
  | String c s' => PStr (String c "") :: chars s'
  end.

(** The items [for x in v] visits: the elements of a list, the characters of
    a str, the keys of a dict; other values are not iterable. *)
Definition py_iter (v : pyval) : M (list pyval) :=
  match v with
  | PList l => ret l
  | PStr s => ret (chars s)
  | PDict d => ret (map (fun kv => PStr (fst kv)) d)
  | _ => raise TypeError
  end.

(** [v == s] for a str [s]: among these values only an equal str is equal to
    a str. *)
Definition py_eq_str (v : pyval) (s : string) : bool :=
  match v with
  | PStr s' => (s' =? s)%string
  | _ => false
  end.

(** [s in enum] for a list [enum] of strs. *)
Definition py_in (s : pyval) (enum : list string) : bool :=
  existsb (py_eq_str s) enum.

(** ** The client *)

Record SnipeAPI : Type := mkSnipeAPI {
  _server : string;
  _token : string;
  _session : session;
  _headers : list (string * string)
}.

(** [SnipeAPI.__init__]; the behaviour of the fresh [requests.Session] is an
    argument. *)
Definition __init__ (server token : string) (sess : session) : SnipeAPI :=
  let headers :=
    [("Authorization", "Bearer " ++ token);
     ("Accept", "application/json");
     ("Content-Type", "application/json")] in
  mkSnipeAPI server token sess headers.

(** A session that answers every request with the same body, and one whose
    answer lists two rows; they serve as mock servers. *)
Definition const_session (body : pyval) : session := fun _ _ => body.

Definition rows_A_Ab : pyval :=
  PDict [("total", PInt 2);
         ("rows", PList [PDict [("name", PStr "A")]; PDict [("name", PStr "Ab")]])].

(** Replaces every backquote by a double quote, to write JSON text. *)
Fixpoint qq (s : string) : string :=
  match s with
  | EmptyString => EmptyString
  | String c s' => String (if Ascii.eqb c "`"%char then dquote else c) (qq s')
  end.

(** The client of the sample driver, on a server that answers every request
    with the two rows [A] and [Ab]. *)
Definition mock_api : SnipeAPI :=
  __init__ "https://develop.snipeitapp.com" "CHANGEME" (const_session rows_A_Ab).

(** The two library functions that are left abstract: [repr] of a float (the
    shortest decimal text that reads back as the same float), and
    [datetime.datetime.strptime(s, '%Y-%m-%d')] on a str, which returns
    ([None] here) or raises [ValueError] with a message. *)
Record pylib : Type := mkPylib {
  float_repr : spec_float -> string;
  strptime_ymd : string -> option string
}.

(** A stand-in library for the closed examples, none of which prints a
    float or parses a date: every float prints as [0.0] and a str counts as
    a date when it has ten characters. *)
Definition mock_lib : pylib :=
  mkPylib (fun _ => "0.0")
          (fun s => if (String.length s =? 10)%nat then None
                    else Some "does not match format").

Section Client.

Variable lib : pylib.

(** [repr(v)]. *)
Fixpoint py_repr (v : pyval) : string :=
  match v with
  | PNone => "None"
  | PBool true => "True"
  | PBool false => "False"
  | PInt z => str_of_Z z
  | PFloat f => float_repr lib f
  | PStr s => str_repr s
  | PList l => "[" ++ join ", " (map py_repr l) ++ "]"
  | PDict d =>
      "{" ++ join ", " (map (fun kv => let (k, x) := kv : string * pyval in
                                       str_repr k ++ ": " ++ py_repr x) d) ++ "}"
  end.

(** [str(v)], which is also ['{}'.format(v)]. *)
Definition py_str (v : pyval) : string :=
  match v with
  | PStr s => s
  | _ => py_repr v
  end.

(** [json.dumps(v)] with the default separators and [ensure_ascii]. *)
Fixpoint json_dumps (v : pyval) : string :=
  match v with
  | PNone => "null"
  | PBool true => "true"
  | PBool false => "false"
  | PInt z => str_of_Z z
  | PFloat S754_nan => "NaN"
  | PFloat (S754_infinity false) => "Infinity"
  | PFloat (S754_infinity true) => "-Infinity"
  | PFloat f => float_repr lib f
  | PStr s => json_str s
  | PList l => "[" ++ join ", " (map json_dumps l) ++ "]"
  | PDict d =>
      "{" ++ join ", " (map (fun kv => let (k, x) := kv : string * pyval in
                                       json_str k ++ ": " ++ json_dumps x) d) ++ "}"
  end.

(** [datetime.datetime.strptime(d, '%Y-%m-%d')], its result dropped: a
    value that is not a str is refused with [TypeError]. *)
Definition strptime (d : pyval) : M unit :=
  match d with
  | PStr s =>
      match strptime_ymd lib s with
      | None => ret tt
      | Some msg => raise (ValueError msg)
      end
  | _ => raise TypeError
  end.

(** ** Precondition methods *)

Definition _precondition_error {A} (s : string) : M A :=
  raise (ValueError s).

Definition _precondition_str (s : pyval) : M unit :=
  if is_None s then ret tt
  else if negb (pytype_eqb (type_of s) str_t)
  then _precondition_error (py_str s ++ " is not a string!")
  else ret tt.

Definition _precondition_int (i : pyval) : M unit :=
  if is_None i then ret tt
  else if negb (pytype_eqb (type_of i) int_t)
  then _precondition_error (py_str i ++ " is not a string!")
  else ret tt.

Definition _precondition_float (f : pyval) : M unit :=
  if is_None f then ret tt
  else if negb (pytype_eqb (type_of f) float_t)
  then _precondition_error (py_str f ++ " is not a float!")
  else ret tt.

Definition _precondition_bool (b : pyval) : M unit :=
  if is_None b then ret tt
  else if negb (pytype_eqb (type_of b) bool_t)
  then _precondition_error (py_str b ++ " is not a boolean!")
  else ret tt.

Definition _precondition_enum (s : pyval) (enum : list string) : M unit :=
  if is_None s then ret tt
  else if py_in s enum then ret tt
  else _precondition_error
         (py_str s ++ " is not in the accepted values list: "
          ++ py_str (PList (map PStr enum)) ++ "!").

Definition _precondition_date (d : pyval) : M unit :=
  if is_None d then ret tt
  else try_except_ValueError
         (strptime d)
         (_precondition_error (py_str d ++ " is not a date!")).

(** The elements a [for] loop visits once [type(l) == list] is known. *)
Definition list_items (l : pyval) : list pyval :=
  match l with PList items => items | _ => [] end.

Definition item_type_is (item_type : option string) (name : string) : bool :=
  match item_type with
  | Some t => (t =? name)%string
  | None => false
  end.

Definition _precondition_list (l : pyval) (item_type : option string) : M unit :=
  if is_None l then ret tt
  else
    (if negb (pytype_eqb (type_of l) list_t)
     then _precondition_error (py_str l ++ " is not a list!")
     else ret tt) ;;
    (if item_type_is item_type "str"
     then for_each (list_items l) _precondition_str else ret tt) ;;
    (if item_type_is item_type "int"
     then for_each (list_items l) _precondition_int else ret tt) ;;
    (if item_type_is item_type "bool"
     then for_each (list_items l) _precondition_bool else ret tt) ;;
    (if item_type_is item_type "date"
     then for_each (list_items l) _precondition_date else ret tt) ;;
    (if item_type_is item_type "float"
     then for_each (list_items l) _precondition_float else ret tt).

(** ** Generic helpers *)

(** [_add_to_dict(d, k, v)]; the dictionary it mutates is returned. *)
Definition _add_to_dict (d : dict) (k : string) (v : pyval) : dict :=
  let v := if (k =? "expand")%string && truthy v
           then PStr (lower (py_str v)) else v in
  if truthy (PStr k) && truthy v then dict_set d k v else d.

(** ** HTTP methods *)

(** One call on the session: the request is logged and the parsed body of
    the response returned ([resp.json()]). *)
Definition send (self : SnipeAPI) (r : request) : M pyval :=
  fun t => (Ret (_session self t r), (t ++ [r])%list).

Definition _get (self : SnipeAPI) (path : string) (params : pyval) : M pyval :=
  let url := _server self ++ path in
  if truthy params
  then let data := json_dumps params in
       send self (mkRequest GET url (Some data) None)
  else send self (mkRequest GET url None None).

Definition _post (self : SnipeAPI) (path : string) (payload : pyval) : M pyval :=
  let url := _server self ++ path in
  if truthy payload
  then let data := json_dumps payload in
       send self (mkRequest POST url None (Some data))
  else send self (mkRequest POST url None None).

Definition _put (self : SnipeAPI) (path : string) (payload : pyval) : M pyval :=
  let url := _server self ++ path in
  if truthy payload
  then let data := json_dumps payload in
       send self (mkRequest PUT url None (Some data))
  else send self (mkRequest PUT url None None).

Definition _patch (self : SnipeAPI) (path : string) (payload : pyval) : M pyval :=
  let url := _server self ++ path in
  if truthy payload
  then let data := json_dumps payload in
       send self (mkRequest PATCH url None (Some data))
  else send self (mkRequest PATCH url None None).

Definition _delete (self : SnipeAPI) (path : string) (payload : pyval) : M pyval :=
  let url := _server self ++ path in
  if truthy payload
  then let data := json_dumps payload in
       send self (mkRequest DELETE url None (Some data))
  else send self (mkRequest DELETE url None None).

(** The two value lists the listing methods spell out for [sort] and
    [order]. *)
Definition sort_columns : list string :=
  ["id"; "name"; "asset_tag"; "serial"; "model"; "model_number";
   "last_checkout"; "category"; "manufacturer"; "notes"; "expected_checkin";
   "order_number"; "companyName"; "location"; "image"; "status_label";
   "assigned_to"; "created_at"; "purchase_date"; "purchase_cost"].

Definition order_values : list string := ["asc"; "desc"].

(** The loop every [get_<resource>_by_name] runs over [rows]:
    [for row in rows: if row['name'] == name: return row] and then
    [return None]. *)
Fixpoint first_named (rows : list pyval) (name : string) : M pyval :=
  match rows with
  | [] => ret PNone
  | row :: rest =>
      n <- py_getitem row "name" ;;
      if py_eq_str n name then ret row else first_named rest name
  end.

(** [for row in body['rows']: ...] on the body a listing method returned. *)
Definition scan_rows (body : pyval) (name : string) : M pyval :=
  rows <- py_getitem body "rows" ;;
  items <- py_iter rows ;;
  first_named items name.

(** The formats [create_field] and [update_field] spell out for [fmt]. *)
Definition field_formats : list string :=
  ["ANY"; "CUSTOM REGEX"; "ALPHA"; "ALPHA-DASH"; "NUMERIC"; "ALPHA-NUMERIC";
   "EMAIL"; "DATE"; "URL"; "IP"; "IPV4"; "IPV6"; "MAC"; "BOOLEAN"].

(** ** Resource methods

    One definition per public method, in the order of the source.  The
    arguments keep their names and their order; the keyword arguments come
    after the required ones and [PNone] stands for a default left alone.
    [get_<resource>_by_name] is given for a [name] that is a str. *)

(** [create_accessory], lines 299-326. *)
Definition create_accessory (self : SnipeAPI)
    (name qty category_id order_number purchase_cost purchase_date
     model_number company_id location_id manufacturer_id supplier_id : pyval) : M pyval :=
  _precondition_str name ;;
  _precondition_int qty ;;
  _precondition_str order_number ;;
  _precondition_float purchase_cost ;;
  _precondition_str purchase_date ;;
  _precondition_str model_number ;;
  _precondition_int category_id ;;
  _precondition_int company_id ;;
  _precondition_int location_id ;;
  _precondition_int manufacturer_id ;;
  _precondition_int supplier_id ;;
  let payload : dict :=
    [("name", name);
     ("qty", qty);
     ("category_id", category_id)] in
  let payload := _add_to_dict payload "order_number" order_number in
  let payload := _add_to_dict payload "purchase_cost" purchase_cost in
  let payload := _add_to_dict payload "purchase_date" purchase_date in
  let payload := _add_to_dict payload "model_number" model_number in
  let payload := _add_to_dict payload "company_id" company_id in
  let payload := _add_to_dict payload "location_id" location_id in
  let payload := _add_to_dict payload "manufacturer_id" manufacturer_id in
  let payload := _add_to_dict payload "supplier_id" supplier_id in
  let path := "/api/v1/accessories" in
  _post self path (PDict payload).

(** [get_accessories], lines 328-346. *)
Definition get_accessories (self : SnipeAPI)
    (limit offset search order_number sort order expand : pyval) : M pyval :=
  _precondition_int limit ;;
  _precondition_int offset ;;
  _precondition_str search ;;
  _precondition_str order_number ;;
  _precondition_enum sort sort_columns ;;
  _precondition_enum order order_values ;;
  _precondition_bool expand ;;
  let params : dict := [] in
  let params := _add_to_dict params "limit" limit in
  let params := _add_to_dict params "offset" offset in
  let params := _add_to_dict params "search" search in
  let params := _add_to_dict params "order_number" order_number in
  let params := _add_to_dict params "sort" sort in
  let params := _add_to_dict params "order" order in
  let params := _add_to_dict params "expand" expand in
  let params := PStr (py_str (PDict params)) in
  let path := "/api/v1/accessories" in
  _get self path params.

(** [get_accessory_by_id], lines 348-351. *)
Definition get_accessory_by_id (self : SnipeAPI)
    (accessory_id : pyval) : M pyval :=
  _precondition_int accessory_id ;;
  let path := "/api/v1/accessories/" ++ py_str accessory_id in
  _get self path PNone.

(** [get_accessory_by_name], lines 353-358. *)
Definition get_accessory_by_name (self : SnipeAPI) (name : string) : M pyval :=
  accessories <- get_accessories self
      PNone PNone (PStr name) PNone PNone PNone PNone ;;
  scan_rows accessories name.

(** [create_asset], lines 365-378. *)
Definition create_asset (self : SnipeAPI)
    (status_id model_id asset_tag name : pyval) : M pyval :=
  _precondition_str asset_tag ;;
  _precondition_int status_id ;;
  _precondition_int model_id ;;
  _precondition_str name ;;
  let payload : dict := [("status_id", status_id); ("model_id", model_id)] in
  let payload := _add_to_dict payload "asset_tag" asset_tag in
  let payload := _add_to_dict payload "name" name in
  let path := "/api/v1/hardware" in
  _post self path (PDict payload).

(** [delete_asset], lines 380-383. *)
Definition delete_asset (self : SnipeAPI)
    (asset_id : pyval) : M pyval :=
  _precondition_int asset_id ;;
  let path := "/api/v1/hardware/" ++ py_str asset_id in
  _delete self path PNone.

(** [get_assets], lines 385-417. *)
Definition get_assets (self : SnipeAPI)
    (limit offset search order_number sort order model_id category_id
     manufacturer_id company_id location_id status status_id : pyval) : M pyval :=
  _precondition_int limit ;;
  _precondition_int offset ;;
  _precondition_str search ;;
  _precondition_str order_number ;;
  _precondition_int model_id ;;
  _precondition_int category_id ;;
  _precondition_int manufacturer_id ;;
  _precondition_int company_id ;;
  _precondition_int location_id ;;
  _precondition_str status ;;
  _precondition_str status_id ;;
  _precondition_enum sort sort_columns ;;
  _precondition_enum order order_values ;;
  let path := "/api/v1/hardware" in
  let params : dict := [] in
  let params := _add_to_dict params "limit" limit in
  let params := _add_to_dict params "offset" offset in
  let params := _add_to_dict params "search" search in
  let params := _add_to_dict params "order_number" order_number in
  let params := _add_to_dict params "sort" sort in
  let params := _add_to_dict params "order" order in
  let params := _add_to_dict params "model_id" model_id in
  let params := _add_to_dict params "category_id" category_id in
  let params := _add_to_dict params "manufacturer_id" manufacturer_id in
  let params := _add_to_dict params "company_id" company_id in
  let params := _add_to_dict params "location_id" location_id in
  let params := _add_to_dict params "status" status in
  let params := _add_to_dict params "status_id" status_id in
  _get self path (PDict params).

(** [get_asset_by_id], lines 419-422. *)
Definition get_asset_by_id (self : SnipeAPI)
    (asset_id : pyval) : M pyval :=
  _precondition_int asset_id ;;
  let path := "/api/v1/hardware/" ++ py_str asset_id in
  _get self path PNone.

(** [get_asset_by_name], lines 424-429. *)
Definition get_asset_by_name (self : SnipeAPI) (name : string) : M pyval :=
  assets <- get_assets self
      PNone PNone (PStr name) PNone PNone PNone PNone PNone PNone PNone
      PNone PNone PNone ;;
  scan_rows assets name.

(** [get_asset_by_serial], lines 431-434. *)
Definition get_asset_by_serial (self : SnipeAPI)
    (asset_serial : pyval) : M pyval :=
  _precondition_str asset_serial ;;
  let path := "/api/v1/hardware/byserial/" ++ py_str asset_serial in
  _get self path PNone.

(** [get_asset_by_tag], lines 436-439. *)
Definition get_asset_by_tag (self : SnipeAPI)
    (asset_tag : pyval) : M pyval :=
  _precondition_str asset_tag ;;
  let path := "/api/v1/hardware/bytag/" ++ py_str asset_tag in
  _get self path PNone.

(** [get_assets_by_status_id], lines 441-444. *)
Definition get_assets_by_status_id (self : SnipeAPI)
    (status_label_id : pyval) : M pyval :=
  _precondition_int status_label_id ;;
  let path := "/api/v1/statuslabels/" ++ py_str status_label_id ++ "/assetlist" in
  _get self path PNone.

(** [update_asset], lines 447-486. *)
Definition update_asset (self : SnipeAPI)
    (asset_id asset_tag notes status_id model_id last_checkout assigned_to
     company_id serial order_number warranty_months purchase_cost
     purchase_date requestable archived rtd_location_id name : pyval) : M pyval :=
  _precondition_int asset_id ;;
  _precondition_str asset_tag ;;
  _precondition_str notes ;;
  _precondition_int status_id ;;
  _precondition_int model_id ;;
  _precondition_date last_checkout ;;
  _precondition_int assigned_to ;;
  _precondition_int company_id ;;
  _precondition_str serial ;;
  _precondition_str order_number ;;
  _precondition_int warranty_months ;;
  _precondition_float purchase_cost ;;
  _precondition_date purchase_date ;;
  _precondition_bool requestable ;;
  _precondition_bool archived ;;
  _precondition_int rtd_location_id ;;
  _precondition_str name ;;
  let payload : dict := [] in
  let payload := _add_to_dict payload "asset_tag" asset_tag in
  let payload := _add_to_dict payload "notes" notes in
  let payload := _add_to_dict payload "status_id" status_id in
  let payload := _add_to_dict payload "model_id" model_id in
  let payload := _add_to_dict payload "last_checkout" last_checkout in
  let payload := _add_to_dict payload "assigned_to" assigned_to in
  let payload := _add_to_dict payload "company_id" company_id in
  let payload := _add_to_dict payload "serial" serial in
  let payload := _add_to_dict payload "order_number" order_number in
  let payload := _add_to_dict payload "warranty_months" warranty_months in
  let payload := _add_to_dict payload "purchase_cost" purchase_cost in
  let payload := _add_to_dict payload "purchase_date" purchase_date in
  let payload := _add_to_dict payload "requestable" requestable in
  let payload := _add_to_dict payload "archived" archived in
  let payload := _add_to_dict payload "rtd_location_id" rtd_location_id in
  let payload := _add_to_dict payload "name" name in
  (* print(payload): written to standard output, which is not modelled *)
  let path := "/api/v1/hardware/" ++ py_str asset_id in
  _patch self path (PDict payload).

(** [create_category], lines 492-507. *)
Definition create_category (self : SnipeAPI)
    (name category_type use_default_eula require_acceptance checkin_email : pyval) : M pyval :=
  _precondition_str name ;;
  _precondition_enum category_type ["asset"; "accessory"; "consumable"; "component"; "license"] ;;
  _precondition_bool use_default_eula ;;
  _precondition_bool require_acceptance ;;
  _precondition_bool checkin_email ;;
  let payload : dict := [("name", name); ("category_type", category_type)] in
  let payload := _add_to_dict payload "use_default_uela" use_default_eula in
  let payload := _add_to_dict payload "require_acceptance" require_acceptance in
  let payload := _add_to_dict payload "checkin_email" checkin_email in
  let path := "/api/v1/categories" in
  _post self path (PDict payload).

(** [delete_category], lines 509-512. *)
Definition delete_category (self : SnipeAPI)
    (category_id : pyval) : M pyval :=
  _precondition_int category_id ;;
  let path := "/api/v1/categories/" ++ py_str category_id in
  _delete self path PNone.

(** [get_categories], lines 514-528. *)
Definition get_categories (self : SnipeAPI)
    (limit offset search sort order : pyval) : M pyval :=
  _precondition_int limit ;;
  _precondition_int offset ;;
  _precondition_str search ;;
  _precondition_str sort ;;
  _precondition_enum order order_values ;;
  let payload : dict := [] in
  let payload := _add_to_dict payload "limit" limit in
  let payload := _add_to_dict payload "offset" offset in
  let payload := _add_to_dict payload "search" search in
  let payload := _add_to_dict payload "sort" sort in
  let payload := _add_to_dict payload "order" order in
  let path := "/api/v1/categories" in
  _get self path (PDict payload).

(** [get_category_by_id], lines 530-533. *)
Definition get_category_by_id (self : SnipeAPI)
    (category_id : pyval) : M pyval :=
  _precondition_int category_id ;;
  let path := "/api/v1/categories/" ++ py_str category_id in
  _get self path PNone.

(** [get_category_by_name], lines 535-540. *)
Definition get_category_by_name (self : SnipeAPI) (name : string) : M pyval :=
  categories <- get_categories self PNone PNone (PStr name) PNone PNone ;;
  scan_rows categories name.

(** [update_category], lines 542-558. *)
Definition update_category (self : SnipeAPI)
    (category_id name category_type use_default_eula require_acceptance
     checkin_email : pyval) : M pyval :=
  _precondition_int category_id ;;
  _precondition_str name ;;
  _precondition_str category_type ;;
  _precondition_bool use_default_eula ;;
  _precondition_bool require_acceptance ;;
  _precondition_bool checkin_email ;;
  let payload : dict := [("name", name); ("category_type", category_type)] in
  let payload := _add_to_dict payload "use_default_uela" use_default_eula in
  let payload := _add_to_dict payload "require_acceptance" require_acceptance in
  let payload := _add_to_dict payload "checkin_email" checkin_email in
  let path := "/api/v1/categories/" ++ py_str category_id in
  _patch self path (PDict payload).

(** [create_company], lines 564-570. *)
Definition create_company (self : SnipeAPI)
    (name : pyval) : M pyval :=
  _precondition_str name ;;
  let payload : dict := [("name", name)] in
  let path := "/api/v1/companies" in
  _post self path (PDict payload).

(** [delete_company], lines 572-575. *)
Definition delete_company (self : SnipeAPI)
    (company_id : pyval) : M pyval :=
  _precondition_int company_id ;;
  let path := "/api/v1/companies/" ++ py_str company_id in
  _delete self path PNone ;;
  ret PNone.

(** [get_companies], lines 577-582. *)
Definition get_companies (self : SnipeAPI)
    (search : pyval) : M pyval :=
  _precondition_str search ;;
  let payload : dict := [] in
  let payload := _add_to_dict payload "search" search in
  let path := "/api/v1/companies" in
  _get self path PNone.

(** [get_company_by_id], lines 584-587. *)
Definition get_company_by_id (self : SnipeAPI)
    (company_id : pyval) : M pyval :=
  _precondition_int company_id ;;
  let path := "/api/v1/companies/" ++ py_str company_id in
  _get self path PNone.

(** [get_company_by_name], lines 589-594. *)
Definition get_company_by_name (self : SnipeAPI) (name : string) : M pyval :=
  companies <- get_companies self (PStr name) ;;
  scan_rows companies name.

(** [update_company], lines 596-603. *)
Definition update_company (self : SnipeAPI)
    (company_id name : pyval) : M pyval :=
  _precondition_int company_id ;;
  _precondition_str name ;;
  let payload : dict := [("name", name)] in
  let path := "/api/v1/companies/" ++ py_str company_id in
  _patch self path (PDict payload).

(** [create_component], lines 609-619. *)
Definition create_component (self : SnipeAPI)
    (name qty category_id : pyval) : M pyval :=
  _precondition_str name ;;
  _precondition_int qty ;;
  _precondition_int category_id ;;
  let payload : dict :=
    [("name", name);
     ("qty", qty);
     ("category_id", category_id)] in
  let path := "/api/v1/components" in
  _post self path (PDict payload).

(** [get_components], lines 621-639. *)
Definition get_components (self : SnipeAPI)
    (limit offset search order_number sort order expand : pyval) : M pyval :=
  _precondition_int limit ;;
  _precondition_int offset ;;
  _precondition_str search ;;
  _precondition_str order_number ;;
  _precondition_enum order order_values ;;
  _precondition_enum sort sort_columns ;;
  _precondition_bool expand ;;
  let payload : dict := [] in
  let payload := _add_to_dict payload "limit" limit in
  let payload := _add_to_dict payload "offset" offset in
  let payload := _add_to_dict payload "search" search in
  let payload := _add_to_dict payload "order_number" order_number in
  let payload := _add_to_dict payload "sort" sort in
  let payload := _add_to_dict payload "order" order in
  let payload := _add_to_dict payload "expand" expand in
  let path := "/api/v1/components" in
  _get self path (PDict payload).

(** [get_component_by_id], lines 641-644. *)
Definition get_component_by_id (self : SnipeAPI)
    (component_id : pyval) : M pyval :=
  _precondition_int component_id ;;
  let path := "/api/v1/components/" ++ py_str component_id in
  _get self path PNone.

(** [get_component_by_name], lines 646-651. *)
Definition get_component_by_name (self : SnipeAPI) (name : string) : M pyval :=
  components <- get_components self
      PNone PNone (PStr name) PNone PNone PNone PNone ;;
  scan_rows components name.

(** [create_consumable], lines 659-669. *)
Definition create_consumable (self : SnipeAPI)
    (name qty category_id : pyval) : M pyval :=
  _precondition_str name ;;
  _precondition_int qty ;;
  _precondition_int category_id ;;
  let payload : dict :=
    [("name", name);
     ("qty", qty);
     ("category_id", category_id)] in
  let path := "/api/v1/consumables" in
  _post self path (PDict payload).

(** [get_consumables], lines 671-695. *)
Definition get_consumables (self : SnipeAPI)
    (limit offset search order_number sort order expand category_id
     company_id manufacturer_id : pyval) : M pyval :=
  _precondition_int limit ;;
  _precondition_int offset ;;
  _precondition_str search ;;
  _precondition_str order_number ;;
  _precondition_enum sort sort_columns ;;
  _precondition_enum order order_values ;;
  _precondition_bool expand ;;
  _precondition_int category_id ;;
  _precondition_int company_id ;;
  _precondition_int manufacturer_id ;;
  let payload : dict := [] in
  let payload := _add_to_dict payload "limit" limit in
  let payload := _add_to_dict payload "offset" offset in
  let payload := _add_to_dict payload "search" search in
  let payload := _add_to_dict payload "order_number" order_number in
  let payload := _add_to_dict payload "sort" sort in
  let payload := _add_to_dict payload "order" order in
  let payload := _add_to_dict payload "expand" expand in
  let payload := _add_to_dict payload "category_id" category_id in
  let payload := _add_to_dict payload "company_id" company_id in
  let payload := _add_to_dict payload "manufacturer_id" manufacturer_id in
  let path := "/api/v1/consumables" in
  _get self path (PDict payload).

(** [get_consumable_by_id], lines 697-700. *)
Definition get_consumable_by_id (self : SnipeAPI)
    (consumable_id : pyval) : M pyval :=
  _precondition_int consumable_id ;;
  let path := "/api/v1/consumables/" ++ py_str consumable_id in
  _get self path PNone.

(** [get_consumable_by_name], lines 702-707. *)
Definition get_consumable_by_name (self : SnipeAPI) (name : string) : M pyval :=
  consumables <- get_consumables self
      PNone PNone (PStr name) PNone PNone PNone PNone PNone PNone PNone ;;
  scan_rows consumables name.

(** [create_field], lines 715-736. *)
Definition create_field (self : SnipeAPI)
    (name element field_values fmt custom_format help_text show_in_email
     field_encrypted : pyval) : M pyval :=
  _precondition_str name ;;
  _precondition_enum element ["text"; "listbox"; "textarea"] ;;
  _precondition_list field_values (Some "str") ;;
  _precondition_enum fmt field_formats ;;
  _precondition_str custom_format ;;
  _precondition_str help_text ;;
  _precondition_bool show_in_email ;;
  _precondition_bool field_encrypted ;;
  let payload : dict := [("name", name); ("element", element)] in
  let payload := _add_to_dict payload "field_values" field_values in
  let payload := _add_to_dict payload "format" fmt in
  let payload := _add_to_dict payload "custom_format" custom_format in
  let payload := _add_to_dict payload "help_text" help_text in
  let payload := _add_to_dict payload "show_in_email" show_in_email in
  let payload := _add_to_dict payload "field_encrypted" field_encrypted in
  let path := "/api/v1/fields" in
  _post self path (PDict payload).

(** [delete_field], lines 738-741. *)
Definition delete_field (self : SnipeAPI)
    (field_id : pyval) : M pyval :=
  _precondition_int field_id ;;
  let path := "/api/v1/fields/" ++ py_str field_id in
  _delete self path PNone.

(** [get_fields], lines 743-745. *)
Definition get_fields (self : SnipeAPI) : M pyval :=
  let path := "/api/v1/fields" in
  _get self path PNone.

(** [get_field_by_id], lines 747-750. *)
Definition get_field_by_id (self : SnipeAPI)
    (field_id : pyval) : M pyval :=
  _precondition_int field_id ;;
  let path := "/api/v1/fields/" ++ py_str field_id in
  _get self path PNone.

(** [get_field_by_name], lines 752-757. *)
Definition get_field_by_name (self : SnipeAPI) (name : string) : M pyval :=
  fields <- get_fields self ;;
  scan_rows fields name.

(** [update_field], lines 759-781. *)
Definition update_field (self : SnipeAPI)
    (field_id name element field_values fmt custom_format help_text
     show_in_email field_encrypted : pyval) : M pyval :=
  _precondition_int field_id ;;
  _precondition_str name ;;
  _precondition_enum element ["text"; "listbox"; "textarea"] ;;
  _precondition_list field_values (Some "str") ;;
  _precondition_enum fmt field_formats ;;
  _precondition_str custom_format ;;
  _precondition_str help_text ;;
  _precondition_bool show_in_email ;;
  _precondition_bool field_encrypted ;;
  let payload : dict := [("name", name); ("element", element)] in
  let payload := _add_to_dict payload "field_values" field_values in
  let payload := _add_to_dict payload "format" fmt in
  let payload := _add_to_dict payload "custom_format" custom_format in
  let payload := _add_to_dict payload "help_text" help_text in
  let payload := _add_to_dict payload "show_in_email" show_in_email in
  let payload := _add_to_dict payload "field_encrypted" field_encrypted in
  let path := "/api/v1/fields/" ++ py_str field_id in
  _patch self path (PDict payload).

(** [create_fieldset], lines 789-795. *)
Definition create_fieldset (self : SnipeAPI)
    (name : pyval) : M pyval :=
  _precondition_str name ;;
  let payload : dict := [("name", name)] in
  let path := "/api/v1/fieldsets" in
  _post self path (PDict payload).

(** [delete_fieldset], lines 797-800. *)
Definition delete_fieldset (self : SnipeAPI)
    (fieldset_id : pyval) : M pyval :=
  _precondition_int fieldset_id ;;
  let path := "/api/v1/fieldsets/" ++ py_str fieldset_id in
  _delete self path PNone.

(** [get_fieldsets], lines 802-804. *)
Definition get_fieldsets (self : SnipeAPI) : M pyval :=
  let path := "/api/v1/fieldsets" in
  _get self path PNone.

(** [get_fieldset_by_id], lines 806-809. *)
Definition get_fieldset_by_id (self : SnipeAPI)
    (fieldset_id : pyval) : M pyval :=
  _precondition_int fieldset_id ;;
  let path := "/api/v1/fieldsets/" ++ py_str fieldset_id in
  _get self path PNone.

(** [get_fieldset_by_name], lines 811-816. *)
Definition get_fieldset_by_name (self : SnipeAPI) (name : string) : M pyval :=
  fieldsets <- get_fieldsets self ;;
  scan_rows fieldsets name.

(** [update_fieldset], lines 818-825. *)
Definition update_fieldset (self : SnipeAPI)
    (fieldset_id name : pyval) : M pyval :=
  _precondition_int fieldset_id ;;
  _precondition_str name ;;
  let payload : dict := [("name", name)] in
  let path := "/api/v1/fieldsets/" ++ py_str fieldset_id in
  _put self path (PDict payload).

(** [create_license], lines 831-873. *)
Definition create_license (self : SnipeAPI)
    (name seats category_id product_key company_id expiration_date
     license_email license_name maintained manufacturer_id notes
     order_number purchase_cost purchase_date purchase_order reassignable
     serial supplier_id termination_date : pyval) : M pyval :=
  _precondition_str name ;;
  _precondition_int seats ;;
  _precondition_int category_id ;;
  _precondition_str product_key ;;
  _precondition_int company_id ;;
  _precondition_date expiration_date ;;
  _precondition_str license_email ;;
  _precondition_str license_name ;;
  _precondition_bool maintained ;;
  _precondition_int manufacturer_id ;;
  _precondition_str notes ;;
  _precondition_int order_number ;;
  _precondition_float purchase_cost ;;
  _precondition_date purchase_date ;;
  _precondition_str purchase_order ;;
  _precondition_bool reassignable ;;
  _precondition_str serial ;;
  _precondition_int supplier_id ;;
  _precondition_date termination_date ;;
  let payload : dict :=
    [("name", name);
     ("seats", seats);
     ("category_id", category_id)] in
  let payload := _add_to_dict payload "product_key" product_key in
  let payload := _add_to_dict payload "company_id" company_id in
  let payload := _add_to_dict payload "expiration_date" expiration_date in
  let payload := _add_to_dict payload "license_email" license_email in
  let payload := _add_to_dict payload "license_name" license_name in
  let payload := _add_to_dict payload "maintained" maintained in
  let payload := _add_to_dict payload "manufacturer_id" manufacturer_id in
  let payload := _add_to_dict payload "notes" notes in
  let payload := _add_to_dict payload "order_number" order_number in
  let payload := _add_to_dict payload "purchase_cost" purchase_cost in
  let payload := _add_to_dict payload "purchase_date" purchase_date in
  let payload := _add_to_dict payload "purchase_order" purchase_order in
  let payload := _add_to_dict payload "reassignable" reassignable in
  let payload := _add_to_dict payload "serial" serial in
  let payload := _add_to_dict payload "supplier_id" supplier_id in
  let payload := _add_to_dict payload "termination_date" termination_date in
  let path := "/api/v1/licenses" in
  _post self path (PDict payload).

(** [delete_license], lines 875-878. *)
Definition delete_license (self : SnipeAPI)
    (license_id : pyval) : M pyval :=
  _precondition_int license_id ;;
  let path := "/api/v1/licenses/" ++ py_str license_id in
  _delete self path PNone.

(** [get_licenses], lines 880-897. *)
Definition get_licenses (self : SnipeAPI)
    (limit offset search order_number sort order expand : pyval) : M pyval :=
  _precondition_int limit ;;
  _precondition_int offset ;;
  _precondition_str search ;;
  _precondition_str order_number ;;
  _precondition_enum sort sort_columns ;;
  _precondition_enum order order_values ;;
  _precondition_bool expand ;;
  let params : dict := [] in
  let params := _add_to_dict params "limit" limit in
  let params := _add_to_dict params "offset" offset in
  let params := _add_to_dict params "search" search in
  let params := _add_to_dict params "order_number" order_number in
  let params := _add_to_dict params "sort" sort in
  let params := _add_to_dict params "order" order in
  let params := _add_to_dict params "expand" expand in
  let path := "/api/v1/licenses" in
  _get self path (PDict params).

(** [get_license_by_id], lines 899-902. *)
Definition get_license_by_id (self : SnipeAPI)
    (license_id : pyval) : M pyval :=
  _precondition_int license_id ;;
  let path := "/api/v1/licenses/" ++ py_str license_id in
  _get self path PNone.

(** [get_license_by_name], lines 904-909. *)
Definition get_license_by_name (self : SnipeAPI) (name : string) : M pyval :=
  licenses <- get_licenses self
      PNone PNone (PStr name) PNone PNone PNone PNone ;;
  scan_rows licenses name.

(** [update_license], lines 911-949. *)
Definition update_license (self : SnipeAPI)
    (license_id name seats company_id expiration_date license_email
     license_name maintained manufacturer_id notes order_number
     purchase_cost purchase_date purchase_order reassignable serial
     supplier_id termination_date : pyval) : M pyval :=
  _precondition_int license_id ;;
  _precondition_str name ;;
  _precondition_int seats ;;
  _precondition_int company_id ;;
  _precondition_date expiration_date ;;
  _precondition_str license_email ;;
  _precondition_str license_name ;;
  _precondition_bool maintained ;;
  _precondition_int manufacturer_id ;;
  _precondition_str notes ;;
  _precondition_int order_number ;;
  _precondition_float purchase_cost ;;
  _precondition_date purchase_date ;;
  _precondition_str purchase_order ;;
  _precondition_bool reassignable ;;
  _precondition_str serial ;;
  _precondition_int supplier_id ;;
  _precondition_date termination_date ;;
  let payload : dict := [] in
  let payload := _add_to_dict payload "name" name in
  let payload := _add_to_dict payload "seats" seats in
  let payload := _add_to_dict payload "company_id" company_id in
  let payload := _add_to_dict payload "expiration_date" expiration_date in
  let payload := _add_to_dict payload "license_email" license_email in
  let payload := _add_to_dict payload "license_name" license_name in
  let payload := _add_to_dict payload "maintained" maintained in
  let payload := _add_to_dict payload "manufacturer_id" manufacturer_id in
  let payload := _add_to_dict payload "notes" notes in
  let payload := _add_to_dict payload "order_number" order_number in
  let payload := _add_to_dict payload "purchase_cost" purchase_cost in
  let payload := _add_to_dict payload "purchase_date" purchase_date in
  let payload := _add_to_dict payload "purchase_order" purchase_order in
  let payload := _add_to_dict payload "reassignable" reassignable in
  let payload := _add_to_dict payload "serial" serial in
  let payload := _add_to_dict payload "supplier_id" supplier_id in
  let payload := _add_to_dict payload "termination_date" termination_date in
  let path := "/api/v1/licenses/" ++ py_str license_id in
  _patch self path (PDict payload).

(** [create_location], lines 955-973. *)
Definition create_location (self : SnipeAPI)
    (name address address2 city state country zipcode : pyval) : M pyval :=
  _precondition_str name ;;
  _precondition_str address ;;
  _precondition_str address2 ;;
  _precondition_str city ;;
  _precondition_str state ;;
  _precondition_str country ;;
  _precondition_str zipcode ;;
  let payload : dict := [("name", name)] in
  let payload := _add_to_dict payload "address" address in
  let payload := _add_to_dict payload "address2" address2 in
  let payload := _add_to_dict payload "city" city in
  let payload := _add_to_dict payload "state" state in
  let payload := _add_to_dict payload "country" country in
  let payload := _add_to_dict payload "zip" zipcode in
  let path := "/api/v1/locations" in
  _post self path (PDict payload).

(** [delete_location], lines 975-978. *)
Definition delete_location (self : SnipeAPI)
    (location_id : pyval) : M pyval :=
  _precondition_int location_id ;;
  let path := "/api/v1/locations/" ++ py_str location_id in
  _delete self path PNone.

(** [get_locations], lines 980-993. *)
Definition get_locations (self : SnipeAPI)
    (limit offset search sort order : pyval) : M pyval :=
  _precondition_int limit ;;
  _precondition_int offset ;;
  _precondition_str search ;;
  _precondition_enum sort sort_columns ;;
  _precondition_enum order order_values ;;
  let payload : dict := [] in
  let payload := _add_to_dict payload "limit" limit in
  let payload := _add_to_dict payload "offset" offset in
  let payload := _add_to_dict payload "search" search in
  let payload := _add_to_dict payload "sort" sort in
  let payload := _add_to_dict payload "order" order in
  let path := "/api/v1/locations" in
  _get self path (PDict payload).

(** [get_location_by_id], lines 995-998. *)
Definition get_location_by_id (self : SnipeAPI)
    (location_id : pyval) : M pyval :=
  _precondition_int location_id ;;
  let path := "/api/v1/locations/" ++ py_str location_id in
  _get self path PNone.

(** [get_location_by_name], lines 1000-1005. *)
Definition get_location_by_name (self : SnipeAPI) (name : string) : M pyval :=
  locations <- get_locations self PNone PNone (PStr name) PNone PNone ;;
  scan_rows locations name.

(** [update_location], lines 1007-1025. *)
Definition update_location (self : SnipeAPI)
    (location_id name address address2 city state country zipcode : pyval) : M pyval :=
  _precondition_int location_id ;;
  _precondition_str name ;;
  _precondition_str address ;;
  _precondition_str address2 ;;
  _precondition_str city ;;
  _precondition_str state ;;
  _precondition_str country ;;
  _precondition_str zipcode ;;
  let payload : dict := [] in
  let payload := _add_to_dict payload "name" name in
  let payload := _add_to_dict payload "address" address in
  let payload := _add_to_dict payload "address2" address2 in
  let payload := _add_to_dict payload "city" city in
  let payload := _add_to_dict payload "state" state in
  let payload := _add_to_dict payload "country" country in
  let payload := _add_to_dict payload "zip" zipcode in
  let path := "/api/v1/locations/" ++ py_str location_id in
  _patch self path (PDict payload).

(** [create_maintenace], lines 1032-1049. *)
Definition create_maintenace (self : SnipeAPI)
    (name address address2 state country zipcode : pyval) : M pyval :=
  _precondition_str name ;;
  _precondition_str address ;;
  _precondition_str address2 ;;
  _precondition_str state ;;
  _precondition_str country ;;
  _precondition_str zipcode ;;
  let payload : dict := [("name", name)] in
  let payload := _add_to_dict payload "address" address in
  let payload := _add_to_dict payload "address2" address2 in
  let payload := _add_to_dict payload "state" state in
  let payload := _add_to_dict payload "country" country in
  let payload := _add_to_dict payload "zip" zipcode in
  let path := "/api/v1/maintenances" in
  _post self path (PDict payload).

(** [get_maintenaces], lines 1051-1066. *)
Definition get_maintenaces (self : SnipeAPI)
    (limit offset search sort order asset_id : pyval) : M pyval :=
  _precondition_int limit ;;
  _precondition_int offset ;;
  _precondition_str search ;;
  _precondition_enum sort sort_columns ;;
  _precondition_enum order order_values ;;
  _precondition_int asset_id ;;
  let payload : dict := [] in
  let payload := _add_to_dict payload "limit" limit in
  let payload := _add_to_dict payload "offset" offset in
  let payload := _add_to_dict payload "search" search in
  let payload := _add_to_dict payload "sort" sort in
  let payload := _add_to_dict payload "order" order in
  let payload := _add_to_dict payload "asset_id" asset_id in
  let path := "/api/v1/maintenances" in
  _get self path (PDict payload).

(** [create_manufacturer], lines 1072-1078. *)
Definition create_manufacturer (self : SnipeAPI)
    (name : pyval) : M pyval :=
  _precondition_str name ;;
  let payload : dict := [("name", name)] in
  let path := "/api/v1/manufacturers" in
  _post self path (PDict payload).

(** [delete_manufacturer], lines 1080-1083. *)
Definition delete_manufacturer (self : SnipeAPI)
    (manufacturer_id : pyval) : M pyval :=
  _precondition_int manufacturer_id ;;
  let path := "/api/v1/manufacturers/" ++ py_str manufacturer_id in
  _delete self path PNone.

(** [get_manufacturers], lines 1085-1090. *)
Definition get_manufacturers (self : SnipeAPI)
    (search : pyval) : M pyval :=
  _precondition_str search ;;
  let payload : dict := [] in
  let payload := _add_to_dict payload "search" search in
  let path := "/api/v1/manufacturers" in
  _get self path (PDict payload).

(** [get_manufacturer_by_id], lines 1092-1095. *)
Definition get_manufacturer_by_id (self : SnipeAPI)
    (manufacturer_id : pyval) : M pyval :=
  _precondition_int manufacturer_id ;;
  let path := "/api/v1/manufacturers/" ++ py_str manufacturer_id in
  _get self path PNone.

(** [get_manufacturer_by_name], lines 1097-1102. *)
Definition get_manufacturer_by_name (self : SnipeAPI) (name : string) : M pyval :=
  manufacturers <- get_manufacturers self (PStr name) ;;
  scan_rows manufacturers name.

(** [update_manufacturer], lines 1104-1113. *)
Definition update_manufacturer (self : SnipeAPI)
    (manufacturer_id name : pyval) : M pyval :=
  _precondition_int manufacturer_id ;;
  _precondition_str name ;;
  let payload : dict := [("name", name)] in
  let path := "/api/v1/manufacturers" in
  _patch self path (PDict payload).

(** [create_model], lines 1119-1135. *)
Definition create_model (self : SnipeAPI)
    (name category_id manufacturer_id model_number eol fieldset_id : pyval) : M pyval :=
  _precondition_str name ;;
  _precondition_str model_number ;;
  _precondition_int category_id ;;
  _precondition_int manufacturer_id ;;
  _precondition_int eol ;;
  _precondition_int fieldset_id ;;
  let payload : dict :=
    [("name", name);
     ("category_id", category_id);
     ("manufacturer_id", manufacturer_id)] in
  let payload := _add_to_dict payload "model_number" model_number in
  let payload := _add_to_dict payload "eol" eol in
  let payload := _add_to_dict payload "fieldset_id" fieldset_id in
  let path := "/api/v1/models" in
  _post self path (PDict payload).

(** [delete_model], lines 1137-1140. *)
Definition delete_model (self : SnipeAPI)
    (model_id : pyval) : M pyval :=
  _precondition_int model_id ;;
  let path := "/api/v1/models/" ++ py_str model_id in
  _delete self path PNone.

(** [get_models], lines 1142-1155. *)
Definition get_models (self : SnipeAPI)
    (limit offset search sort order : pyval) : M pyval :=
  _precondition_int limit ;;
  _precondition_int offset ;;
  _precondition_str search ;;
  _precondition_enum sort sort_columns ;;
  _precondition_enum order order_values ;;
  let payload : dict := [] in
  let payload := _add_to_dict payload "limit" limit in
  let payload := _add_to_dict payload "offset" offset in
  let payload := _add_to_dict payload "search" search in
  let payload := _add_to_dict payload "sort" sort in
  let payload := _add_to_dict payload "order" order in
  let path := "/api/v1/models" in
  _get self path (PDict payload).

(** [get_model_by_id], lines 1157-1160. *)
Definition get_model_by_id (self : SnipeAPI)
    (model_id : pyval) : M pyval :=
  _precondition_int model_id ;;
  let path := "/api/v1/models/" ++ py_str model_id in
  _get self path PNone.

(** [get_model_by_name], lines 1162-1167. *)
Definition get_model_by_name (self : SnipeAPI) (name : string) : M pyval :=
  models <- get_models self PNone PNone (PStr name) PNone PNone ;;
  scan_rows models name.

(** [update_model], lines 1169-1186. *)
Definition update_model (self : SnipeAPI)
    (model_id name category_id manufacturer_id model_number eol fieldset_id : pyval) : M pyval :=
  _precondition_int model_id ;;
  _precondition_str name ;;
  _precondition_str model_number ;;
  _precondition_int category_id ;;
  _precondition_int manufacturer_id ;;
  _precondition_int eol ;;
  _precondition_int fieldset_id ;;
  let payload : dict :=
    [("name", name);
     ("category_id", category_id);
     ("manufacturer_id", manufacturer_id)] in
  let payload := _add_to_dict payload "model_number" model_number in
  let payload := _add_to_dict payload "eol" eol in
  let payload := _add_to_dict payload "fieldset_id" fieldset_id in
  let path := "/api/v1/models/" ++ py_str model_id in
  _patch self path (PDict payload).

(** [create_status_label], lines 1192-1200. *)
Definition create_status_label (self : SnipeAPI)
    (name type_name : pyval) : M pyval :=
  _precondition_str name ;;
  _precondition_enum type_name ["deployable"; "pending"; "archived"] ;;
  let payload : dict := [("name", name)] in
  let payload := _add_to_dict payload "type" type_name in
  let path := "/api/v1/statuslabels" in
  _post self path (PDict payload).

(** [delete_status_label], lines 1202-1205. *)
Definition delete_status_label (self : SnipeAPI)
    (status_label_id : pyval) : M pyval :=
  _precondition_int status_label_id ;;
  let path := "/api/v1/statuslabels/" ++ py_str status_label_id in
  _delete self path PNone.

(** [get_status_labels], lines 1207-1220. *)
Definition get_status_labels (self : SnipeAPI)
    (limit offset search sort order : pyval) : M pyval :=
  _precondition_int limit ;;
  _precondition_int offset ;;
  _precondition_str search ;;
  _precondition_enum sort sort_columns ;;
  _precondition_enum order order_values ;;
  let payload : dict := [] in
  let payload := _add_to_dict payload "limit" limit in
  let payload := _add_to_dict payload "offset" offset in
  let payload := _add_to_dict payload "search" search in
  let payload := _add_to_dict payload "sort" sort in
  let payload := _add_to_dict payload "order" order in
  let path := "/api/v1/statuslabels" in
  _get self path (PDict payload).

(** [get_status_label_by_id], lines 1222-1225. *)
Definition get_status_label_by_id (self : SnipeAPI)
    (status_label_id : pyval) : M pyval :=
  _precondition_int status_label_id ;;
  let path := "/api/v1/statuslabels/" ++ py_str status_label_id in
  _get self path PNone.

(** [update_status_label], lines 1227-1248. *)
Definition update_status_label (self : SnipeAPI)
    (status_label_id name type_name : pyval) : M pyval :=
  _precondition_int status_label_id ;;
  _precondition_str name ;;
  _precondition_enum type_name ["deployable"; "pending"; "archived"] ;;
  let deployable_bool := false in
  let pending_bool := false in
  let archived_bool := false in
  let '(deployable_bool, pending_bool, archived_bool) :=
    if py_eq_str type_name "deployable"
    then (true, pending_bool, archived_bool)
    else if py_eq_str type_name "pending"
    then (deployable_bool, true, archived_bool)
    else if py_eq_str type_name "archived"
    then (deployable_bool, pending_bool, true)
    else (deployable_bool, pending_bool, archived_bool) in
  let payload : dict :=
    [("name", name);
     ("deployable", PBool deployable_bool);
     ("pending", PBool pending_bool);
     ("archived", PBool archived_bool)] in
  let path := "/api/v1/statuslabels/" ++ py_str status_label_id in
  _post self path (PDict payload).

(** [create_user], lines 1255-1295. *)
Definition create_user (self : SnipeAPI)
    (first_name username password last_name email permissions activated
     phone jobtitle manager_id employee_num notes company_id
     two_factor_enrolled two_factor_optin department_id location_id : pyval) : M pyval :=
  _precondition_str first_name ;;
  _precondition_str last_name ;;
  _precondition_str username ;;
  _precondition_str password ;;
  _precondition_str email ;;
  _precondition_str permissions ;;
  _precondition_bool activated ;;
  _precondition_str phone ;;
  _precondition_str jobtitle ;;
  _precondition_int manager_id ;;
  _precondition_str employee_num ;;
  _precondition_str notes ;;
  _precondition_int company_id ;;
  _precondition_bool two_factor_enrolled ;;
  _precondition_bool two_factor_optin ;;
  _precondition_int department_id ;;
  _precondition_int location_id ;;
  let payload : dict :=
    [("first_name", first_name);
     ("username", username);
     ("password", password);
     ("password_confirmation", password)] in
  let payload := _add_to_dict payload "last_name" last_name in
  let payload := _add_to_dict payload "email" email in
  let payload := _add_to_dict payload "permissions" permissions in
  let payload := _add_to_dict payload "activated" activated in
  let payload := _add_to_dict payload "phone" phone in
  let payload := _add_to_dict payload "jobtitle" jobtitle in
  let payload := _add_to_dict payload "manager_id" manager_id in
  let payload := _add_to_dict payload "employee_num" employee_num in
  let payload := _add_to_dict payload "notes" notes in
  let payload := _add_to_dict payload "company_id" company_id in
  let payload := _add_to_dict payload "two_factor_enrolled" two_factor_enrolled in
  let payload := _add_to_dict payload "two_factor_optin" two_factor_optin in
  let payload := _add_to_dict payload "department_id" department_id in
  let payload := _add_to_dict payload "location_id" location_id in
  let path := "/api/v1/users" in
  _post self path (PDict payload).

(** [delete_user], lines 1297-1300. *)
Definition delete_user (self : SnipeAPI)
    (user_id : pyval) : M pyval :=
  _precondition_int user_id ;;
  let path := "/api/v1/users/" ++ py_str user_id in
  _delete self path PNone.

(** [get_users], lines 1302-1323. *)
Definition get_users (self : SnipeAPI)
    (search limit offset sort order group_id company_id department_id
     deleted : pyval) : M pyval :=
  _precondition_str search ;;
  _precondition_int limit ;;
  _precondition_int offset ;;
  _precondition_enum sort sort_columns ;;
  _precondition_enum order order_values ;;
  _precondition_int group_id ;;
  _precondition_int company_id ;;
  _precondition_int department_id ;;
  _precondition_bool deleted ;;
  let payload : dict := [] in
  let payload := _add_to_dict payload "search" search in
  let payload := _add_to_dict payload "limit" limit in
  let payload := _add_to_dict payload "offset" offset in
  let payload := _add_to_dict payload "sort" sort in
  let payload := _add_to_dict payload "order" order in
  let payload := _add_to_dict payload "group_id" group_id in
  let payload := _add_to_dict payload "company_id" company_id in
  let payload := _add_to_dict payload "department_id" department_id in
  let payload := _add_to_dict payload "deleted" deleted in
  let path := "/api/v1/users" in
  _get self path (PDict payload).

(** [get_user_by_id], lines 1325-1328. *)
Definition get_user_by_id (self : SnipeAPI)
    (user_id : pyval) : M pyval :=
  _precondition_int user_id ;;
  let path := "/api/v1/users/" ++ py_str user_id in
  _get self path PNone.

(** [get_user_by_name], lines 1330-1335. *)
Definition get_user_by_name (self : SnipeAPI) (name : string) : M pyval :=
  users <- get_users self
      (PStr name) PNone PNone PNone PNone PNone PNone PNone PNone ;;
  scan_rows users name.

(** [get_users_checked_out_assets], lines 1337-1340. *)
Definition get_users_checked_out_assets (self : SnipeAPI)
    (user_id : pyval) : M pyval :=
  _precondition_int user_id ;;
  let path := "/api/v1/users/" ++ py_str user_id ++ "/assets" in
  _get self path PNone.

(** [get_users_checked_out_accessories], lines 1342-1345. *)
Definition get_users_checked_out_accessories (self : SnipeAPI)
    (user_id : pyval) : M pyval :=
  _precondition_int user_id ;;
  let path := "/api/v1/users/" ++ py_str user_id ++ "/accessories" in
  _get self path PNone.

(** [update_user], lines 1348-1387. *)
Definition update_user (self : SnipeAPI)
    (user_id first_name username password last_name email permissions
     activated phone jobtitle manager_id employee_num notes company_id
     two_factor_enrolled two_factor_optin department_id location_id : pyval) : M pyval :=
  _precondition_int user_id ;;
  _precondition_str first_name ;;
  _precondition_str last_name ;;
  _precondition_str username ;;
  _precondition_str password ;;
  _precondition_str email ;;
  _precondition_str permissions ;;
  _precondition_bool activated ;;
  _precondition_str phone ;;
  _precondition_str jobtitle ;;
  _precondition_int manager_id ;;
  _precondition_str employee_num ;;
  _precondition_str notes ;;
  _precondition_int company_id ;;
  _precondition_bool two_factor_enrolled ;;
  _precondition_bool two_factor_optin ;;
  _precondition_int department_id ;;
  _precondition_int location_id ;;
  let payload : dict := [] in
  let payload := _add_to_dict payload "first_name" first_name in
  let payload := _add_to_dict payload "username" username in
  let payload := _add_to_dict payload "password" password in
  let payload := _add_to_dict payload "password_confirmation" password in
  let payload := _add_to_dict payload "last_name" last_name in
  let payload := _add_to_dict payload "email" email in
  let payload := _add_to_dict payload "permissions" permissions in
  let payload := _add_to_dict payload "activated" activated in
  let payload := _add_to_dict payload "phone" phone in
  let payload := _add_to_dict payload "jobtitle" jobtitle in
  let payload := _add_to_dict payload "manager_id" manager_id in
  let payload := _add_to_dict payload "employee_num" employee_num in
  let payload := _add_to_dict payload "notes" notes in
  let payload := _add_to_dict payload "company_id" company_id in
  let payload := _add_to_dict payload "two_factor_enrolled" two_factor_enrolled in
  let payload := _add_to_dict payload "two_factor_optin" two_factor_optin in
  let payload := _add_to_dict payload "department_id" department_id in
  let payload := _add_to_dict payload "location_id" location_id in
  let path := "/api/v1/users/" ++ py_str user_id in
  _patch self path (PDict payload).

(** [create_supplier], lines 1395-1425. *)
Definition create_supplier (self : SnipeAPI)
    (name address address2 state city country zipcode contact phone fax
     email url notes : pyval) : M pyval :=
  _precondition_str name ;;
  _precondition_str address ;;
  _precondition_str address2 ;;
  _precondition_str state ;;
  _precondition_str city ;;
  _precondition_str country ;;
  _precondition_str zipcode ;;
  _precondition_str contact ;;
  _precondition_str phone ;;
  _precondition_str fax ;;
  _precondition_str email ;;
  _precondition_str url ;;
  _precondition_str notes ;;
  let payload : dict := [("name", name)] in
  let payload := _add_to_dict payload "address" address in
  let payload := _add_to_dict payload "address2" address2 in
  let payload := _add_to_dict payload "state" state in
  let payload := _add_to_dict payload "city" city in
  let payload := _add_to_dict payload "country" country in
  let payload := _add_to_dict payload "zip" zipcode in
  let payload := _add_to_dict payload "contact" contact in
  let payload := _add_to_dict payload "phone" phone in
  let payload := _add_to_dict payload "fax" fax in
  let payload := _add_to_dict payload "email" email in
  let payload := _add_to_dict payload "url" url in
  let payload := _add_to_dict payload "notes" notes in
  let path := "/api/v1/suppliers" in
  _post self path (PDict payload).

(** [delete_supplier], lines 1427-1430. *)
Definition delete_supplier (self : SnipeAPI)
    (supplier_id : pyval) : M pyval :=
  _precondition_int supplier_id ;;
  let path := "/api/v1/suppliers/" ++ py_str supplier_id in
  _delete self path PNone.

(** [get_suppliers], lines 1432-1434. *)
Definition get_suppliers (self : SnipeAPI) : M pyval :=
  let path := "/api/v1/suppliers" in
  _get self path PNone.

(** [get_supplier_by_id], lines 1436-1439. *)
Definition get_supplier_by_id (self : SnipeAPI)
    (supplier_id : pyval) : M pyval :=
  _precondition_int supplier_id ;;
  let path := "/api/v1/suppliers/" ++ py_str supplier_id in
  _get self path PNone.

(** [get_supplier_by_name], lines 1441-1446. *)
Definition get_supplier_by_name (self : SnipeAPI) (name : string) : M pyval :=
  suppliers <- get_suppliers self ;;
  scan_rows suppliers name.

(** [update_supplier], lines 1448-1478. *)
Definition update_supplier (self : SnipeAPI)
    (supplier_id name address address2 state city country zipcode contact
     phone fax email url notes : pyval) : M pyval :=
  _precondition_int supplier_id ;;
  _precondition_str name ;;
  _precondition_str address ;;
  _precondition_str address2 ;;
  _precondition_str state ;;
  _precondition_str city ;;
  _precondition_str country ;;
  _precondition_str zipcode ;;
  _precondition_str contact ;;
  _precondition_str phone ;;
  _precondition_str fax ;;
  _precondition_str email ;;
  _precondition_str url ;;
  _precondition_str notes ;;
  let payload : dict := [] in
  let payload := _add_to_dict payload "name" name in
  let payload := _add_to_dict payload "address" address in
  let payload := _add_to_dict payload "address2" address2 in
  let payload := _add_to_dict payload "state" state in
  let payload := _add_to_dict payload "city" city in
  let payload := _add_to_dict payload "country" country in
  let payload := _add_to_dict payload "zip" zipcode in
  let payload := _add_to_dict payload "contact" contact in
  let payload := _add_to_dict payload "phone" phone in
  let payload := _add_to_dict payload "fax" fax in
  let payload := _add_to_dict payload "email" email in
  let payload := _add_to_dict payload "url" url in
  let payload := _add_to_dict payload "notes" notes in
  let path := "/api/v1/suppliers/" ++ py_str supplier_id in
  _patch self path (PDict payload).

(** ** Vocabulary of the statements *)

(** [v] is [None] or has exactly the type [ty]. *)
Definition none_or (ty : pytype) (v : pyval) : bool :=
  is_None v || pytype_eqb (type_of v) ty.

(** [v] is [None] or one of the strs of [enum]. *)
Definition none_or_in (enum : list string) (v : pyval) : bool :=
  is_None v || py_in v enum.

(** The helper [h] accepts exactly the values that satisfy [ok]; it refuses
    the others with a [ValueError] whose message begins with the value, and
    sends nothing either way. *)
Definition validates (h : pyval -> M unit) (ok : pyval -> bool) : Prop :=
  forall v t,
    if ok v then h v t = (Ret tt, t)
    else exists msg, h v t = (Raise (ValueError msg), t) /\
                     prefix (py_str v) msg = true.

(** A check: it returns [None] or raises, and sends nothing. *)
Definition checker (c : M unit) : Prop :=
  forall t, c t = (Ret tt, t) \/ exists e, c t = (Raise e, t).

(** A computation that always raises before it sends anything. *)
Definition rejects {A} (c : M A) : Prop :=
  forall t, exists e, c t = (Raise e, t).

(** The request a wrapper sends for a path and a payload. *)
Definition body_of (payload : pyval) : option string :=
  if truthy payload then Some (json_dumps payload) else None.

Definition get_request (self : SnipeAPI) (path : string) (params : pyval) : request :=
  mkRequest GET (_server self ++ path) (body_of params) None.

Definition data_request (v : verb) (self : SnipeAPI) (path : string)
    (payload : pyval) : request :=
  mkRequest v (_server self ++ path) None (body_of payload).

(** [c] sends exactly one request, which satisfies [P], and returns the body
    of its response; or it raises before sending anything. *)
Definition one_call (self : SnipeAPI) (P : request -> Prop) (c : M pyval) : Prop :=
  forall t,
    (exists r, P r /\ c t = (Ret (_session self t r), (t ++ [r])%list)) \/
    (exists e, c t = (Raise e, t)).

(** The [name] field of a row, when the row is a dict that has one. *)
Definition name_of (row : pyval) : option pyval :=
  match row with
  | PDict d => dict_get d "name"
  | _ => None
  end.

(** A row named exactly [name], and a row with another name. *)
Definition named (name : string) (row : pyval) : Prop :=
  exists v, name_of row = Some v /\ py_eq_str v name = true.

Definition named_other (name : string) (row : pyval) : Prop :=
  exists v, name_of row = Some v /\ py_eq_str v name = false.

(** What the specification says of a [get_<resource>_by_name] method [f]:
    it sends one request; when the body of the response has a list under
    [rows], the first row named [name] is returned if the rows before it
    carry other names, [None] is returned if all rows carry other names, and
    whatever is returned is [None] or a row named exactly [name]. *)
Definition by_name_spec (f : SnipeAPI -> string -> M pyval) : Prop :=
  forall self name t, exists r,
    snd (f self name t) = (t ++ [r])%list /\
    forall d rows,
      _session self t r = PDict d -> dict_get d "rows" = Some (PList rows) ->
      (forall pre row post,
          rows = (pre ++ row :: post)%list ->
          Forall (named_other name) pre -> named name row ->
          fst (f self name t) = Ret row) /\
      (Forall (named_other name) rows -> fst (f self name t) = Ret PNone) /\
      (forall v, fst (f self name t) = Ret v ->
                 v = PNone \/ (In v rows /\ named name v)).

Definition by_name_methods : list (SnipeAPI -> string -> M pyval) :=
  [get_accessory_by_name; get_asset_by_name; get_category_by_name;
   get_company_by_name; get_component_by_name; get_consumable_by_name;
   get_field_by_name; get_fieldset_by_name; get_license_by_name;
   get_location_by_name; get_manufacturer_by_name; get_model_by_name;
   get_user_by_name; get_supplier_by_name].

(** A listing method called with [search] sends no query parameters. *)
Definition null_params (f : SnipeAPI -> pyval -> M pyval) : Prop :=
  forall self search t r,
    snd (f self search t) = (t ++ [r])%list -> req_params r = None.

(** Every request [c] sends satisfies [P]. *)
Definition every_request (P : request -> Prop) (c : M pyval) : Prop :=
  forall t r, snd (c t) = (t ++ [r])%list -> P r.

(** The query a listing method sends is absent or the JSON text of a
    non-empty mapping. *)
Definition sends_mapping (c : M pyval) : Prop :=
  every_request
    (fun r =>
       req_params r = None \/
       exists d : dict, d <> [] /\ req_params r = Some (json_dumps (PDict d)))
    c.

(** The query a listing method sends is the JSON text of the str form of a
    mapping: it is present, and it is not the JSON text of a mapping. *)
Definition sends_str (c : M pyval) : Prop :=
  every_request
    (fun r =>
       (exists d : dict,
           req_params r = Some (json_dumps (PStr (py_str (PDict d))))) /\
       req_params r <> None /\
       (forall d : dict, req_params r <> Some (json_dumps (PDict d))))
    c.

(** The client of the sample driver, on a server that answers every request
    with the two rows [A] and [Ab]. *)
(** ** Further vocabulary *)

(** A request of this client: it goes to a path under [/api/v1/] of the
    configured server; a GET carries no body and the other verbs carry no
    query. *)
Definition api_request (self : SnipeAPI) (r : request) : Prop :=
  prefix (_server self ++ "/api/v1/") (req_url r) = true /\
  (req_verb r = GET -> req_data r = None) /\
  (req_verb r <> GET -> req_params r = None).

(** [c] leaves the log as it is or adds one request, which satisfies [P]. *)
Definition at_most_one (P : request -> Prop) (c : M pyval) : Prop :=
  forall t,
    snd (c t) = t \/ exists r, P r /\ snd (c t) = (t ++ [r])%list.

(** A mapping without an empty key and without a falsy value. *)
Definition clean (d : dict) : Prop :=
  Forall (fun kv => truthy (PStr (fst kv)) = true /\ truthy (snd kv) = true) d.

(** A row that is a dict without a [name] field. *)
Definition nameless (row : pyval) : Prop :=
  exists d, row = PDict d /\ dict_get d "name" = None.

(** How a [get_<resource>_by_name] method [f] fails on a response that is
    not of the expected shape; the listing request has been sent by then. *)
Definition by_name_errors (f : SnipeAPI -> string -> M pyval) : Prop :=
  forall self name t, exists r,
    snd (f self name t) = (t ++ [r])%list /\
    (type_of (_session self t r) <> dict_t ->
     fst (f self name t) = Raise TypeError) /\
    (forall d,
        _session self t r = PDict d -> dict_get d "rows" = None ->
        fst (f self name t) = Raise (KeyError "rows")) /\
    (forall d rows pre row post,
        _session self t r = PDict d -> dict_get d "rows" = Some (PList rows) ->
        rows = (pre ++ row :: post)%list ->
        Forall (named_other name) pre ->
        (nameless row -> fst (f self name t) = Raise (KeyError "name")) /\
        (type_of row <> dict_t -> fst (f self name t) = Raise TypeError)).

(** The lookups by name whose listing method takes and transmits [search],
    with the path they list, and the ones that list everything. *)
Definition searching_by_name : list ((SnipeAPI -> string -> M pyval) * string) :=
  [(get_asset_by_name, "/api/v1/hardware");
   (get_category_by_name, "/api/v1/categories");
   (get_component_by_name, "/api/v1/components");
   (get_consumable_by_name, "/api/v1/consumables");
   (get_license_by_name, "/api/v1/licenses");
   (get_location_by_name, "/api/v1/locations");
   (get_manufacturer_by_name, "/api/v1/manufacturers");
   (get_model_by_name, "/api/v1/models");
   (get_user_by_name, "/api/v1/users")].

Definition unfiltered_by_name : list ((SnipeAPI -> string -> M pyval) * string) :=
  [(get_company_by_name, "/api/v1/companies");
   (get_field_by_name, "/api/v1/fields");
   (get_fieldset_by_name, "/api/v1/fieldsets");
   (get_supplier_by_name, "/api/v1/suppliers")].


(** The client of the sample driver on a server that answers every request
    with [body]. *)
Definition api_answering (body : pyval) : SnipeAPI :=
  __init__ "https://develop.snipeitapp.com" "CHANGEME" (const_session body).

(** ** Basic facts *)

Lemma prefix_app (s r : string) : prefix s (s ++ r) = true.
Proof.
  induction s as [|c s IH]; simpl.
  - destruct r; reflexivity.
  - destruct (ascii_dec c c); [exact IH | congruence].
Qed.

Lemma str_of_Z_nonempty (z : Z) : str_of_Z z <> "".
Proof.
  unfold str_of_Z. destruct (Z.to_int z) as [d|d]; simpl.
  - destruct d; discriminate.
  - discriminate.
Qed.

Lemma lower_nonempty (s : string) : s <> "" -> lower s <> "".
Proof. destruct s; simpl; [congruence | discriminate]. Qed.

(** [str] of a truthy value is not empty, when [repr] of a float is not. *)
Lemma py_str_nonempty (v : pyval) :
  (forall f, float_repr lib f <> "") ->
  truthy v = true -> py_str v <> "".
Proof.
  intros Hf Hv. destruct v as [|b|z|f|s|l|d]; simpl in *; try discriminate.
  - destruct b; discriminate.
  - apply str_of_Z_nonempty.
  - apply Hf.
  - destruct (String.eqb_spec s ""); simpl in Hv; congruence.
Qed.

Lemma dict_get_set_same (d : dict) (k : string) (v : pyval) :
  dict_get (dict_set d k v) k = Some v.
Proof.
  induction d as [|[k' v'] d IH]; simpl.
  - now rewrite String.eqb_refl.
  - destruct (String.eqb_spec k' k); simpl.
    + now rewrite String.eqb_refl.
    + destruct (String.eqb_spec k' k); [contradiction | exact IH].
Qed.

Lemma dict_get_set_other (d : dict) (k k' : string) (v : pyval) :
  k' <> k -> dict_get (dict_set d k v) k' = dict_get d k'.
Proof.
  intros Hk. induction d as [|[k0 v0] d IH]; simpl.
  - destruct (String.eqb_spec k k'); congruence.
  - destruct (String.eqb_spec k0 k); simpl.
    + subst. destruct (String.eqb_spec k k'); [congruence|].
      destruct (String.eqb_spec k k'); congruence.
    + destruct (String.eqb_spec k0 k'); [reflexivity | exact IH].
Qed.

(** ** Validation helpers *)

Lemma precondition_str_validates : validates _precondition_str (none_or str_t).
Proof.
  intros v t. destruct v; simpl; try reflexivity;
    (eexists; split; [reflexivity | apply prefix_app]).
Qed.

Lemma precondition_int_validates : validates _precondition_int (none_or int_t).
Proof.
  intros v t. destruct v; simpl; try reflexivity;
    (eexists; split; [reflexivity | apply prefix_app]).
Qed.

Lemma precondition_float_validates :
  validates _precondition_float (none_or float_t).
Proof.
  intros v t. destruct v; simpl; try reflexivity;
    (eexists; split; [reflexivity | apply prefix_app]).
Qed.

Lemma precondition_bool_validates : validates _precondition_bool (none_or bool_t).
Proof.
  intros v t. destruct v; simpl; try reflexivity;
    (eexists; split; [reflexivity | apply prefix_app]).
Qed.

Lemma precondition_enum_validates (enum : list string) :
  validates (fun s => _precondition_enum s enum) (none_or_in enum).
Proof.
  intros v t. unfold none_or_in, _precondition_enum.
  destruct (is_None v); simpl; [reflexivity|].
  destruct (py_in v enum); [reflexivity|].
  eexists; split; [reflexivity | apply prefix_app].
Qed.

Lemma precondition_list_validates :
  validates (fun l => _precondition_list l None) (none_or list_t).
Proof.
  intros v t. destruct v; simpl; try reflexivity;
    (eexists; split; [reflexivity | apply prefix_app]).
Qed.

(** A str is accepted by the date helper when [strptime] parses it and is
    refused with a [ValueError] naming it when [strptime] does not. *)
Lemma precondition_date_str (s : string) (t : log) :
  match strptime_ymd lib s with
  | None => _precondition_date (PStr s) t = (Ret tt, t)
  | Some _ =>
      _precondition_date (PStr s) t
      = (Raise (ValueError (s ++ " is not a date!")), t)
  end.
Proof.
  unfold _precondition_date, try_except_ValueError, strptime; simpl.
  destruct (strptime_ymd lib s); reflexivity.
Qed.

Lemma precondition_date_None (t : log) : _precondition_date PNone t = (Ret tt, t).
Proof. reflexivity. Qed.

(** A value that is neither [None] nor a str makes the date helper raise
    [TypeError]: [strptime] refuses it and only [ValueError] is caught. *)
Lemma precondition_date_other_kind (v : pyval) (t : log) :
  none_or str_t v = false -> _precondition_date v t = (Raise TypeError, t).
Proof. destruct v; simpl; intros H; try discriminate; reflexivity. Qed.

(** C1 (the code departs from the claim).  The claim: every validation
    helper returns silently on [None] and on a value of the expected kind and
    raises [ValueError], with a message naming the value, on any other kind.
    The date helper given the int 20240115 raises [TypeError] instead: no
    [ValueError], no message.  The other helpers do as claimed (lemmas
    [precondition_str_validates] to [precondition_list_validates]). *)
Theorem precondition_date_int_raises_TypeError :
  forall t : log,
    _precondition_date (PInt 20240115) t = (Raise TypeError, t) /\
    (forall msg, fst (_precondition_date (PInt 20240115) t)
                 <> Raise (ValueError msg)) /\
    _precondition_list (PList [PInt 20240115]) (Some "date") t
    = (Raise TypeError, t).
Proof.
  intros t. split; [reflexivity | split; [|reflexivity]].
  intros msg. simpl. discriminate.
Qed.

(** ** Payload assembly *)

(** C2.  [_add_to_dict(d, k, v)] assigns [d[k] = v] exactly when [k] and [v]
    are both truthy and leaves [d] as it is otherwise; under the key
    [expand] a truthy [v] is stored as the lowercase text [str(v).lower()],
    so that [True] is stored as the str [true].  ([repr] of a float is
    assumed never to be empty.) *)
Theorem add_to_dict_spec :
  (forall f, float_repr lib f <> "") ->
  forall (d : dict) (k : string) (v : pyval),
    _add_to_dict d k v =
      (if truthy (PStr k) && truthy v
       then dict_set d k (if (k =? "expand")%string
                          then PStr (lower (py_str v)) else v)
       else d)
    /\ _add_to_dict d "limit" PNone = d
    /\ _add_to_dict d "limit" (PInt 0) = d
    /\ _add_to_dict d "expand" (PBool false) = d
    /\ _add_to_dict d "limit" (PStr "") = d
    /\ _add_to_dict d "expand" (PBool true) = dict_set d "expand" (PStr "true").
Proof.
  intros Hf d k v. split; [|repeat split].
  unfold _add_to_dict.
  destruct (String.eqb_spec k "expand") as [->|Hk]; simpl.
  - destruct (truthy v) eqn:Hv; simpl; [|now rewrite Hv].
    destruct (String.eqb_spec (lower (py_str v)) "") as [E|E]; [|reflexivity].
    exfalso. revert E. apply lower_nonempty, py_str_nonempty; assumption.
  - reflexivity.
Qed.

(** ** Checks and single calls *)

Lemma checker_ret : checker (ret tt).
Proof. intros t. now left. Qed.

Lemma checker_error (s : string) : checker (_precondition_error s).
Proof. intros t. right. now eexists. Qed.

Lemma checker_if (b : bool) (c1 c2 : M unit) :
  checker c1 -> checker c2 -> checker (if b then c1 else c2).
Proof. now destruct b. Qed.

Lemma checker_bind (c : M unit) (k : M unit) :
  checker c -> checker k -> checker (c ;; k).
Proof.
  intros Hc Hk t. unfold bind.
  destruct (Hc t) as [E|[e E]]; rewrite E; [apply Hk | right; now eexists].
Qed.

Lemma checker_str (v : pyval) : checker (_precondition_str v).
Proof.
  unfold _precondition_str.
  repeat apply checker_if; auto using checker_ret, checker_error.
Qed.

Lemma checker_int (v : pyval) : checker (_precondition_int v).
Proof.
  unfold _precondition_int.
  repeat apply checker_if; auto using checker_ret, checker_error.
Qed.

Lemma checker_float (v : pyval) : checker (_precondition_float v).
Proof.
  unfold _precondition_float.
  repeat apply checker_if; auto using checker_ret, checker_error.
Qed.

Lemma checker_bool (v : pyval) : checker (_precondition_bool v).
Proof.
  unfold _precondition_bool.
  repeat apply checker_if; auto using checker_ret, checker_error.
Qed.

Lemma checker_enum (v : pyval) (enum : list string) :
  checker (_precondition_enum v enum).
Proof.
  unfold _precondition_enum.
  repeat apply checker_if; auto using checker_ret, checker_error.
Qed.

Lemma checker_date (v : pyval) : checker (_precondition_date v).
Proof.
  unfold _precondition_date. apply checker_if; [apply checker_ret|].
  intros t. unfold try_except_ValueError, strptime.
  destruct v; simpl; try (right; now eexists).
  destruct (strptime_ymd lib s); simpl; [right; now eexists | now left].
Qed.

Lemma checker_for_each (items : list pyval) (body : pyval -> M unit) :
  (forall v, checker (body v)) -> checker (for_each items body).
Proof.
  intros Hb. induction items as [|x items IH]; simpl.
  - apply checker_ret.
  - apply checker_bind; [apply Hb | exact IH].
Qed.

Lemma checker_list (v : pyval) (item_type : option string) :
  checker (_precondition_list v item_type).
Proof.
  unfold _precondition_list.
  apply checker_if; [apply checker_ret|].
  repeat apply checker_bind;
    apply checker_if;
    auto using checker_ret, checker_error, checker_for_each, checker_str,
      checker_int, checker_bool, checker_date, checker_float.
Qed.

Create HintDb checks.
#[local] Hint Resolve checker_str checker_int checker_float checker_bool
  checker_enum checker_date checker_list : checks.

Lemma one_call_bind (self : SnipeAPI) (P : request -> Prop)
    (c : M unit) (k : M pyval) :
  checker c -> one_call self P k -> one_call self P (c ;; k).
Proof.
  intros Hc Hk t. unfold bind.
  destruct (Hc t) as [E|[e E]]; rewrite E; [apply Hk | right; now eexists].
Qed.

Lemma get_run (self : SnipeAPI) (path : string) (params : pyval) (t : log) :
  _get self path params t
  = (Ret (_session self t (get_request self path params)),
     (t ++ [get_request self path params])%list).
Proof.
  unfold _get, get_request, body_of. now destruct (truthy params).
Qed.

Lemma post_run (self : SnipeAPI) (path : string) (payload : pyval) (t : log) :
  _post self path payload t
  = (Ret (_session self t (data_request POST self path payload)),
     (t ++ [data_request POST self path payload])%list).
Proof.
  unfold _post, data_request, body_of. now destruct (truthy payload).
Qed.

Lemma put_run (self : SnipeAPI) (path : string) (payload : pyval) (t : log) :
  _put self path payload t
  = (Ret (_session self t (data_request PUT self path payload)),
     (t ++ [data_request PUT self path payload])%list).
Proof.
  unfold _put, data_request, body_of. now destruct (truthy payload).
Qed.

Lemma patch_run (self : SnipeAPI) (path : string) (payload : pyval) (t : log) :
  _patch self path payload t
  = (Ret (_session self t (data_request PATCH self path payload)),
     (t ++ [data_request PATCH self path payload])%list).
Proof.
  unfold _patch, data_request, body_of. now destruct (truthy payload).
Qed.

Lemma delete_run (self : SnipeAPI) (path : string) (payload : pyval) (t : log) :
  _delete self path payload t
  = (Ret (_session self t (data_request DELETE self path payload)),
     (t ++ [data_request DELETE self path payload])%list).
Proof.
  unfold _delete, data_request, body_of. now destruct (truthy payload).
Qed.

Lemma one_call_get self P path params :
  P (get_request self path params) -> one_call self P (_get self path params).
Proof. intros HP t. left. eexists. split; [exact HP | apply get_run]. Qed.

Lemma one_call_post self P path payload :
  P (data_request POST self path payload) ->
  one_call self P (_post self path payload).
Proof. intros HP t. left. eexists. split; [exact HP | apply post_run]. Qed.

Lemma one_call_put self P path payload :
  P (data_request PUT self path payload) ->
  one_call self P (_put self path payload).
Proof. intros HP t. left. eexists. split; [exact HP | apply put_run]. Qed.

Lemma one_call_patch self P path payload :
  P (data_request PATCH self path payload) ->
  one_call self P (_patch self path payload).
Proof. intros HP t. left. eexists. split; [exact HP | apply patch_run]. Qed.

Lemma one_call_delete self P path payload :
  P (data_request DELETE self path payload) ->
  one_call self P (_delete self path payload).
Proof. intros HP t. left. eexists. split; [exact HP | apply delete_run]. Qed.

Lemma bind_checked {A} (c : M unit) (k : M A) (t : log) :
  c t = (Ret tt, t) -> (c ;; k) t = k t.
Proof. intros H. unfold bind. now rewrite H. Qed.

Lemma ok_int v t : none_or int_t v = true -> _precondition_int v t = (Ret tt, t).
Proof. intros H. generalize (precondition_int_validates v t). now rewrite H. Qed.

Lemma ok_str v t : none_or str_t v = true -> _precondition_str v t = (Ret tt, t).
Proof. intros H. generalize (precondition_str_validates v t). now rewrite H. Qed.

Lemma ok_bool v t : none_or bool_t v = true -> _precondition_bool v t = (Ret tt, t).
Proof. intros H. generalize (precondition_bool_validates v t). now rewrite H. Qed.

Lemma ok_enum v enum t :
  none_or_in enum v = true -> _precondition_enum v enum t = (Ret tt, t).
Proof.
  intros H. generalize (precondition_enum_validates enum v t). now rewrite H.
Qed.

Ltac head_of c :=
  match c with
  | ?f _ => head_of f
  | _ => c
  end.

Ltac unfold_method :=
  match goal with
  | |- one_call _ _ ?c => let h := head_of c in unfold h
  end.

(** Runs a method body: the checks first, then the wrapper. *)
Ltac run_method :=
  repeat (apply one_call_bind; [auto with checks |]);
  first [ apply one_call_get | apply one_call_post | apply one_call_put
        | apply one_call_patch | apply one_call_delete ].

(** ** Creating an asset *)

(** C9.  [create_asset(status_id=2, model_id=24, name="pc1")] sends exactly
    one POST to [/api/v1/hardware] whose body is the JSON text of
    [{"status_id": 2, "model_id": 24, "name": "pc1"}], without a field for
    the omitted [asset_tag], and returns the body of the response as it
    is. *)
Theorem create_asset_pc1 :
  forall (self : SnipeAPI) (t : log),
    let r := mkRequest POST (_server self ++ "/api/v1/hardware") None
               (Some (qq "{`status_id`: 2, `model_id`: 24, `name`: `pc1`}")) in
    create_asset self (PInt 2) (PInt 24) PNone (PStr "pc1") t
    = (Ret (_session self t r), (t ++ [r])%list)
    /\ req_data r
       = Some (json_dumps (PDict [("status_id", PInt 2); ("model_id", PInt 24);
                                  ("name", PStr "pc1")])).
Proof. intros self t. split; reflexivity. Qed.

(** ** Updating *)

(** Every update method but [update_manufacturer] sends its one request to
    the path of the resource followed by the id: PATCH, PUT for fieldsets,
    POST for status labels. *)
Lemma update_paths (self : SnipeAPI) :
  let to v rp id r :=
    req_verb r = v /\ req_url r = _server self ++ "/api/v1/" ++ rp ++ "/" ++ py_str id in
  (forall id a b c d e f g h i j k l m n o p,
      one_call self (to PATCH "hardware" id)
        (update_asset self id a b c d e f g h i j k l m n o p)) /\
  (forall id a b c d e,
      one_call self (to PATCH "categories" id) (update_category self id a b c d e)) /\
  (forall id a,
      one_call self (to PATCH "companies" id) (update_company self id a)) /\
  (forall id a b c d e f g h,
      one_call self (to PATCH "fields" id) (update_field self id a b c d e f g h)) /\
  (forall id a,
      one_call self (to PUT "fieldsets" id) (update_fieldset self id a)) /\
  (forall id a b c d e f g h i j k l m n o p q,
      one_call self (to PATCH "licenses" id)
        (update_license self id a b c d e f g h i j k l m n o p q)) /\
  (forall id a b c d e f g,
      one_call self (to PATCH "locations" id)
        (update_location self id a b c d e f g)) /\
  (forall id a b c d e f,
      one_call self (to PATCH "models" id) (update_model self id a b c d e f)) /\
  (forall id a b,
      one_call self (to POST "statuslabels" id) (update_status_label self id a b)) /\
  (forall id a b c d e f g h i j k l m n o p q,
      one_call self (to PATCH "users" id)
        (update_user self id a b c d e f g h i j k l m n o p q)) /\
  (forall id a b c d e f g h i j k l m,
      one_call self (to PATCH "suppliers" id)
        (update_supplier self id a b c d e f g h i j k l m)).
Proof.
  cbv zeta. repeat split; intros; unfold_method.
  all: try (run_method; split; reflexivity).
  repeat (apply one_call_bind; [auto with checks |]).
  repeat destruct (py_eq_str _ _); apply one_call_post; split; reflexivity.
Qed.

(** C5 (the code departs from the claim).  The claim: every update method
    sends its request to the path of the resource followed by the id.
    [update_manufacturer(3, "Dell")] sends its PATCH to
    [/api/v1/manufacturers]: the id is checked and then left out of the
    path.  The eleven other update methods put the id in ([update_paths]). *)
Theorem update_manufacturer_path_lacks_id :
  forall (self : SnipeAPI) (t : log),
    let r := mkRequest PATCH (_server self ++ "/api/v1/manufacturers") None
               (Some (qq "{`name`: `Dell`}")) in
    update_manufacturer self (PInt 3) (PStr "Dell") t
    = (Ret (_session self t r), (t ++ [r])%list).
Proof. intros self t. reflexivity. Qed.

(** Whatever the id, the request of [update_manufacturer] goes to the bare
    collection path. *)
Lemma update_manufacturer_any_id (self : SnipeAPI) (id name : pyval) :
  one_call self
    (fun r => req_url r = _server self ++ "/api/v1/manufacturers")
    (update_manufacturer self id name).
Proof. unfold update_manufacturer. run_method. reflexivity. Qed.

(** ** Deleting *)

(** Every delete method but [delete_company] sends one DELETE to the path of
    the resource followed by the id and returns the body of the response. *)
Lemma delete_returns_body (self : SnipeAPI) :
  (forall id, one_call self (eq (data_request DELETE self ("/api/v1/hardware/"
    ++ py_str id) PNone)) (delete_asset self id)) /\
  (forall id, one_call self (eq (data_request DELETE self
    ("/api/v1/categories/" ++ py_str id) PNone)) (delete_category self id)) /\
  (forall id, one_call self (eq (data_request DELETE self ("/api/v1/fields/"
    ++ py_str id) PNone)) (delete_field self id)) /\
  (forall id, one_call self (eq (data_request DELETE self
    ("/api/v1/fieldsets/" ++ py_str id) PNone)) (delete_fieldset self id)) /\
  (forall id, one_call self (eq (data_request DELETE self ("/api/v1/licenses/"
    ++ py_str id) PNone)) (delete_license self id)) /\
  (forall id, one_call self (eq (data_request DELETE self
    ("/api/v1/locations/" ++ py_str id) PNone)) (delete_location self id)) /\
  (forall id, one_call self (eq (data_request DELETE self
    ("/api/v1/manufacturers/" ++ py_str id) PNone)) (delete_manufacturer self
    id)) /\
  (forall id, one_call self (eq (data_request DELETE self ("/api/v1/models/"
    ++ py_str id) PNone)) (delete_model self id)) /\
  (forall id, one_call self (eq (data_request DELETE self
    ("/api/v1/statuslabels/" ++ py_str id) PNone)) (delete_status_label self
    id)) /\
  (forall id, one_call self (eq (data_request DELETE self ("/api/v1/users/" ++
    py_str id) PNone)) (delete_user self id)) /\
  (forall id, one_call self (eq (data_request DELETE self
    ("/api/v1/suppliers/" ++ py_str id) PNone)) (delete_supplier self id)).
Proof.
  repeat split; intros; unfold_method; run_method; reflexivity.
Qed.

(** C7 (the code departs from the claim).  The claim: every public method
    sends one request and returns the parsed body of the response as it is,
    every delete method in particular.  [delete_company(id)] sends its
    DELETE and then returns [None], whatever the server answered: the
    result of [_delete] is dropped.  The eleven other delete methods return
    it ([delete_returns_body]). *)
Theorem delete_company_returns_None :
  forall (self : SnipeAPI) (id : Z) (t : log),
    let r := mkRequest DELETE
               (_server self ++ "/api/v1/companies/" ++ str_of_Z id) None None in
    delete_company self (PInt id) t = (Ret PNone, (t ++ [r])%list).
Proof. intros self id t. reflexivity. Qed.

(** ** Listing: the checks on [sort] and [order] *)

Lemma rejects_bind_now {A} (c : M unit) (k : M A) :
  rejects c -> rejects (c ;; k).
Proof.
  intros Hc t. unfold bind. destruct (Hc t) as [e E]. rewrite E. now eexists.
Qed.

Lemma rejects_bind_later {A} (c : M unit) (k : M A) :
  checker c -> rejects k -> rejects (c ;; k).
Proof.
  intros Hc Hk t. unfold bind.
  destruct (Hc t) as [E|[e E]]; rewrite E; [apply Hk | now eexists].
Qed.

Lemma rejects_enum (v : pyval) (enum : list string) :
  none_or_in enum v = false -> rejects (_precondition_enum v enum).
Proof.
  unfold none_or_in, _precondition_enum. intros H t.
  destruct (is_None v); [discriminate|]. simpl in H. rewrite H. now eexists.
Qed.

Ltac find_rejection :=
  match goal with
  | |- rejects ?c => let h := head_of c in unfold h
  end;
  repeat first
    [ apply rejects_bind_now; apply rejects_enum; assumption
    | apply rejects_bind_later; [auto with checks |] ].

(** Every listing method with a [sort] argument, [get_categories] apart,
    raises before it sends anything when [sort] is neither [None] nor one of
    the twenty columns. *)
Lemma sort_is_checked (self : SnipeAPI) :
  (forall limit offset search order_number sort order expand, none_or_in
    sort_columns sort = false -> rejects (get_accessories self limit offset
    search order_number sort order expand)) /\
  (forall limit offset search order_number sort order model_id category_id
    manufacturer_id company_id location_id status status_id, none_or_in
    sort_columns sort = false -> rejects (get_assets self limit offset search
    order_number sort order model_id category_id manufacturer_id company_id
    location_id status status_id)) /\
  (forall limit offset search order_number sort order expand, none_or_in
    sort_columns sort = false -> rejects (get_components self limit offset
    search order_number sort order expand)) /\
  (forall limit offset search order_number sort order expand category_id
    company_id manufacturer_id, none_or_in sort_columns sort = false ->
    rejects (get_consumables self limit offset search order_number sort order
    expand category_id company_id manufacturer_id)) /\
  (forall limit offset search order_number sort order expand, none_or_in
    sort_columns sort = false -> rejects (get_licenses self limit offset
    search order_number sort order expand)) /\
  (forall limit offset search sort order, none_or_in sort_columns sort = false
    -> rejects (get_locations self limit offset search sort order)) /\
  (forall limit offset search sort order asset_id, none_or_in sort_columns
    sort = false -> rejects (get_maintenaces self limit offset search sort
    order asset_id)) /\
  (forall limit offset search sort order, none_or_in sort_columns sort = false
    -> rejects (get_models self limit offset search sort order)) /\
  (forall limit offset search sort order, none_or_in sort_columns sort = false
    -> rejects (get_status_labels self limit offset search sort order)) /\
  (forall search limit offset sort order group_id company_id department_id
    deleted, none_or_in sort_columns sort = false -> rejects (get_users self
    search limit offset sort order group_id company_id department_id deleted)).
Proof. repeat split; intros; find_rejection. Qed.

(** Every listing method with an [order] argument raises before it sends
    anything when [order] is neither [None], [asc] nor [desc]. *)
Lemma order_is_checked (self : SnipeAPI) :
  (forall limit offset search order_number sort order expand, none_or_in
    order_values order = false -> rejects (get_accessories self limit offset
    search order_number sort order expand)) /\
  (forall limit offset search order_number sort order model_id category_id
    manufacturer_id company_id location_id status status_id, none_or_in
    order_values order = false -> rejects (get_assets self limit offset search
    order_number sort order model_id category_id manufacturer_id company_id
    location_id status status_id)) /\
  (forall limit offset search sort order, none_or_in order_values order =
    false -> rejects (get_categories self limit offset search sort order)) /\
  (forall limit offset search order_number sort order expand, none_or_in
    order_values order = false -> rejects (get_components self limit offset
    search order_number sort order expand)) /\
  (forall limit offset search order_number sort order expand category_id
    company_id manufacturer_id, none_or_in order_values order = false ->
    rejects (get_consumables self limit offset search order_number sort order
    expand category_id company_id manufacturer_id)) /\
  (forall limit offset search order_number sort order expand, none_or_in
    order_values order = false -> rejects (get_licenses self limit offset
    search order_number sort order expand)) /\
  (forall limit offset search sort order, none_or_in order_values order =
    false -> rejects (get_locations self limit offset search sort order)) /\
  (forall limit offset search sort order asset_id, none_or_in order_values
    order = false -> rejects (get_maintenaces self limit offset search sort
    order asset_id)) /\
  (forall limit offset search sort order, none_or_in order_values order =
    false -> rejects (get_models self limit offset search sort order)) /\
  (forall limit offset search sort order, none_or_in order_values order =
    false -> rejects (get_status_labels self limit offset search sort order)) /\
  (forall search limit offset sort order group_id company_id department_id
    deleted, none_or_in order_values order = false -> rejects (get_users self
    search limit offset sort order group_id company_id department_id deleted)).
Proof. repeat split; intros; find_rejection. Qed.

(** C8 (the code departs from the claim).  The claim: every listing method
    with a [sort] argument checks it against the twenty allowed columns and
    raises on any other str before a request is sent.
    [get_categories(sort="bogus")] checks only that [sort] is a str and
    sends the GET with [bogus] as the sort column.  The ten other listing
    methods with a [sort] argument check it ([sort_is_checked]) and all
    eleven check [order] ([order_is_checked]). *)
Theorem get_categories_accepts_any_sort :
  forall (self : SnipeAPI) (t : log),
    none_or_in sort_columns (PStr "bogus") = false /\
    let r := mkRequest GET (_server self ++ "/api/v1/categories")
               (Some (qq "{`sort`: `bogus`}")) None in
    get_categories self PNone PNone PNone (PStr "bogus") PNone t
    = (Ret (_session self t r), (t ++ [r])%list).
Proof. intros self t. split; reflexivity. Qed.

(** ** Status labels *)

(** C6.  For an id and a name that pass the checks (an int, a str, or
    [None]) and a [type_name] among [deployable], [pending] and [archived],
    [update_status_label] builds the payload [name], [deployable],
    [pending], [archived] in which exactly the flag named by [type_name] is
    true, and sends it by POST, not PATCH or PUT, to
    [/api/v1/statuslabels/<id>]; [update_status_label(5, "X", "pending")]
    sends [{"name": "X", "deployable": false, "pending": true,
    "archived": false}] to [/api/v1/statuslabels/5]. *)
Theorem update_status_label_flags :
  forall (self : SnipeAPI) (t : log),
    (forall (id name : pyval) (ty : string),
        none_or int_t id = true -> none_or str_t name = true ->
        In ty ["deployable"; "pending"; "archived"] ->
        let dep := (ty =? "deployable")%string in
        let pen := (ty =? "pending")%string in
        let arc := (ty =? "archived")%string in
        let payload := PDict [("name", name); ("deployable", PBool dep);
                              ("pending", PBool pen); ("archived", PBool arc)] in
        let r := mkRequest POST
                   (_server self ++ "/api/v1/statuslabels/" ++ py_str id)
                   None (Some (json_dumps payload)) in
        count_occ bool_dec [dep; pen; arc] true = 1%nat /\
        update_status_label self id name (PStr ty) t
        = (Ret (_session self t r), (t ++ [r])%list))
    /\ (let r := mkRequest POST (_server self ++ "/api/v1/statuslabels/5") None
                   (Some (qq "{`name`: `X`, `deployable`: false, `pending`: true, `archived`: false}")) in
        update_status_label self (PInt 5) (PStr "X") (PStr "pending") t
        = (Ret (_session self t r), (t ++ [r])%list)).
Proof.
  intros self t. split; [|reflexivity].
  intros id name ty Hid Hname H.
  destruct H as [<-|[<-|[<-|[]]]]; (split; [reflexivity|]);
    unfold update_status_label;
    rewrite !bind_checked by auto using ok_int, ok_str, ok_enum;
    reflexivity.
Qed.

(** ** Looking a resource up by name *)

Lemma first_named_silent (rows : list pyval) (name : string) (t : log) :
  snd (first_named rows name t) = t.
Proof.
  induction rows as [|row rows IH]; simpl; [reflexivity|].
  unfold bind, py_getitem.
  destruct row; try reflexivity.
  destruct (dict_get d "name"); simpl; [|reflexivity].
  destruct (py_eq_str p name); [reflexivity | exact IH].
Qed.

Lemma first_named_step_other (row : pyval) rows name t :
  named_other name row ->
  first_named (row :: rows) name t = first_named rows name t.
Proof.
  intros [v [Hn He]]. destruct row; simpl in Hn; try discriminate.
  simpl. unfold bind, py_getitem. rewrite Hn. simpl. now rewrite He.
Qed.

Lemma first_named_step_named (row : pyval) rows name t :
  named name row -> first_named (row :: rows) name t = (Ret row, t).
Proof.
  intros [v [Hn He]]. destruct row; simpl in Hn; try discriminate.
  simpl. unfold bind, py_getitem. rewrite Hn. simpl. now rewrite He.
Qed.

Lemma first_named_first (pre : list pyval) row post name t :
  Forall (named_other name) pre -> named name row ->
  first_named (pre ++ row :: post) name t = (Ret row, t).
Proof.
  intros Hpre Hrow. induction Hpre as [|x pre Hx _ IH]; simpl app.
  - now apply first_named_step_named.
  - rewrite first_named_step_other by assumption. exact IH.
Qed.

Lemma first_named_none (rows : list pyval) name t :
  Forall (named_other name) rows -> first_named rows name t = (Ret PNone, t).
Proof.
  intros H. induction H as [|x rows Hx _ IH]; [reflexivity|].
  rewrite first_named_step_other by assumption. exact IH.
Qed.

Lemma first_named_sound (rows : list pyval) name t v :
  fst (first_named rows name t) = Ret v ->
  v = PNone \/ (In v rows /\ named name v).
Proof.
  induction rows as [|row rows IH]; simpl.
  - intros [= <-]. now left.
  - unfold bind, py_getitem.
    destruct row; try discriminate.
    destruct (dict_get d "name") eqn:Hn; simpl; [|discriminate].
    destruct (py_eq_str p name) eqn:He.
    + intros [= <-]. right. split; [now left|]. exists p. now split.
    + intros H. destruct (IH H) as [->|[Hin Hnamed]]; [now left|].
      right. split; [now right | exact Hnamed].
Qed.

Lemma scan_rows_silent (body : pyval) (name : string) (t : log) :
  snd (scan_rows body name t) = t.
Proof.
  unfold scan_rows, bind, py_getitem.
  destruct body; try reflexivity.
  destruct (dict_get d "rows"); [|reflexivity]. simpl.
  destruct p; simpl; try reflexivity; apply first_named_silent.
Qed.

Lemma scan_rows_list (d : dict) (rows : list pyval) (name : string) (t : log) :
  dict_get d "rows" = Some (PList rows) ->
  scan_rows (PDict d) name t = first_named rows name t.
Proof.
  intros H. unfold scan_rows, bind, py_getitem. now rewrite H.
Qed.

(** A method that lists with one request and then scans the rows meets the
    specification of the lookups by name. *)
Lemma scan_after_listing (self : SnipeAPI) (name : string) (listing : M pyval) :
  (forall t, exists r,
      listing t = (Ret (_session self t r), (t ++ [r])%list)) ->
  forall t, exists r,
    snd ((body <- listing ;; scan_rows body name) t) = (t ++ [r])%list /\
    forall d rows,
      _session self t r = PDict d -> dict_get d "rows" = Some (PList rows) ->
      (forall pre row post,
          rows = (pre ++ row :: post)%list ->
          Forall (named_other name) pre -> named name row ->
          fst ((body <- listing ;; scan_rows body name) t) = Ret row) /\
      (Forall (named_other name) rows ->
       fst ((body <- listing ;; scan_rows body name) t) = Ret PNone) /\
      (forall v, fst ((body <- listing ;; scan_rows body name) t) = Ret v ->
                 v = PNone \/ (In v rows /\ named name v)).
Proof.
  intros Hl t. destruct (Hl t) as [r Hr]. exists r.
  unfold bind. rewrite Hr. split; [apply scan_rows_silent|].
  intros d rows Hd Hrows. rewrite Hd, (scan_rows_list _ _ _ Hrows).
  split; [|split].
  - intros pre row post -> Hpre Hrow. now rewrite first_named_first.
  - intros Hall. now rewrite first_named_none.
  - apply first_named_sound.
Qed.

(** C3.  Every [get_<resource>_by_name(name)] sends one listing request
    and, on a response whose [rows] is a list, returns the first row whose
    [name] equals [name] exactly, in list order, and [None] when no row
    does; it never returns a row with another name, such as one that merely
    contains [name].  (The rows read before the result is known are dicts
    with a [name] field, as [named_other] says.) *)
Theorem get_by_name_first_exact_match : Forall by_name_spec by_name_methods.
Proof.
  unfold by_name_methods.
  repeat (apply Forall_cons || apply Forall_nil);
    intros self name;
    apply scan_after_listing; intros t; eexists; apply get_run.
Qed.

(** ** Which listing methods transmit [search] *)

Lemma none_or_str_cases (v : pyval) :
  none_or str_t v = true -> v = PNone \/ exists s, v = PStr s.
Proof. destruct v; try discriminate; [now left | right; now eexists]. Qed.

(** C4 (as amended).  [get_companies] accepts a [search] argument, checks
    it, and sends its GET without query parameters, so that [search] is
    never transmitted; [get_suppliers] takes no [search] argument and sends
    its GET without query parameters; [get_manufacturers] passes the mapping
    it built, so that a non-empty [search] is transmitted. *)
Theorem search_transmission :
  forall self : SnipeAPI,
    (forall search t,
        none_or str_t search = true ->
        let r := mkRequest GET (_server self ++ "/api/v1/companies") None None in
        get_companies self search t = (Ret (_session self t r), (t ++ [r])%list))
    /\ null_params get_companies
    /\ (forall t,
        let r := mkRequest GET (_server self ++ "/api/v1/suppliers") None None in
        get_suppliers self t = (Ret (_session self t r), (t ++ [r])%list))
    /\ (forall s t,
        s <> "" ->
        let r := mkRequest GET (_server self ++ "/api/v1/manufacturers")
                   (Some (json_dumps (PDict [("search", PStr s)]))) None in
        get_manufacturers self (PStr s) t
        = (Ret (_session self t r), (t ++ [r])%list)).
Proof.
  intros self. repeat split.
  - intros search t H.
    destruct (none_or_str_cases _ H) as [->|[s ->]]; reflexivity.
  - intros self' search t r.
    unfold get_companies, bind.
    destruct (checker_str search t) as [E|[e E]]; rewrite E.
    + rewrite get_run. simpl. intros H. apply app_inv_head in H.
      now injection H as <-.
    + simpl. intros H. rewrite <- (app_nil_r t) in H at 1.
      apply app_inv_head in H. discriminate.
  - intros s t Hs. unfold get_manufacturers, bind. simpl.
    unfold _add_to_dict. simpl.
    destruct (String.eqb_spec s ""); [contradiction|]. reflexivity.
Qed.

(** ** What [get_accessories] passes to the GET wrapper *)

Lemma get_str_run (self : SnipeAPI) (path : string) (d : dict) (t : log) :
  let r := mkRequest GET (_server self ++ path)
             (Some (json_dumps (PStr (py_str (PDict d))))) None in
  _get self path (PStr (py_str (PDict d))) t
  = (Ret (_session self t r), (t ++ [r])%list).
Proof. reflexivity. Qed.

Lemma log_grows_not (t : log) (r : request) : t <> (t ++ [r])%list.
Proof.
  intros H. rewrite <- (app_nil_r t) in H at 1.
  apply app_inv_head in H. discriminate.
Qed.

Lemma every_request_bind (P : request -> Prop) (c : M unit) (k : M pyval) :
  checker c -> every_request P k -> every_request P (c ;; k).
Proof.
  intros Hc Hk t r. unfold bind.
  destruct (Hc t) as [E|[e E]]; rewrite E; [apply Hk|].
  simpl. intros H. now apply log_grows_not in H.
Qed.

Lemma every_request_get (P : request -> Prop) self path params :
  P (get_request self path params) -> every_request P (_get self path params).
Proof.
  intros HP t r. rewrite get_run. simpl. intros H.
  apply app_inv_head in H. now injection H as <-.
Qed.

Lemma sends_mapping_get_dict (self : SnipeAPI) (path : string) (d : dict) :
  sends_mapping (_get self path (PDict d)).
Proof.
  apply every_request_get.
  unfold get_request, body_of. destruct d as [|kv d]; simpl.
  - now left.
  - right. exists (kv :: d). split; [discriminate | reflexivity].
Qed.

Lemma sends_mapping_get_None (self : SnipeAPI) (path : string) :
  sends_mapping (_get self path PNone).
Proof. apply every_request_get. now left. Qed.

Lemma sends_str_get (self : SnipeAPI) (path : string) (d : dict) :
  sends_str (_get self path (PStr (py_str (PDict d)))).
Proof.
  apply every_request_get. simpl.
  split; [eexists; reflexivity | split; [discriminate|]].
  intros d'. unfold json_str. discriminate.
Qed.

Lemma json_str_not_mapping (s : string) (d : dict) :
  json_dumps (PStr s) <> json_dumps (PDict d).
Proof. simpl. unfold json_str. discriminate. Qed.

Ltac run_listing :=
  match goal with
  | |- sends_mapping ?c => let h := head_of c in unfold h
  end;
  unfold sends_mapping;
  repeat (apply every_request_bind; [auto with checks |]);
  first [ apply sends_mapping_get_dict | apply sends_mapping_get_None ].

(** C10.  [get_accessories] passes [str(params)] to the GET wrapper: for
    every combination of arguments that the checks accept, the GET carries
    the JSON text of the str form of the mapping, which is truthy even when
    the mapping is empty (all arguments [None] give the str [{}]); a request
    of [get_accessories] never carries the mapping itself or no parameters,
    and no other listing method passes a str. *)
Theorem get_accessories_passes_str :
  forall self : SnipeAPI,
    (forall limit offset search order_number sort order expand t,
        none_or int_t limit = true -> none_or int_t offset = true ->
        none_or str_t search = true -> none_or str_t order_number = true ->
        none_or_in sort_columns sort = true ->
        none_or_in order_values order = true ->
        none_or bool_t expand = true ->
        let params :=
          fold_left (fun d kv => _add_to_dict d (fst kv) (snd kv))
            [("limit", limit); ("offset", offset); ("search", search);
             ("order_number", order_number); ("sort", sort);
             ("order", order); ("expand", expand)] [] in
        let p := PStr (py_str (PDict params)) in
        let r := mkRequest GET (_server self ++ "/api/v1/accessories")
                   (Some (json_dumps p)) None in
        truthy p = true /\
        get_accessories self limit offset search order_number sort order
          expand t
        = (Ret (_session self t r), (t ++ [r])%list))
    /\ (forall t,
        let r := mkRequest GET (_server self ++ "/api/v1/accessories")
                   (Some (qq "`{}`")) None in
        get_accessories self PNone PNone PNone PNone PNone PNone PNone t
        = (Ret (_session self t r), (t ++ [r])%list))
    /\ (forall limit offset search order_number sort order expand,
        sends_str (get_accessories self limit offset search order_number
                     sort order expand))
    /\ (
      (forall limit offset search order_number sort order model_id category_id
        manufacturer_id company_id location_id status status_id, sends_mapping
        (get_assets self limit offset search order_number sort order model_id
        category_id manufacturer_id company_id location_id status status_id)) /\
      (forall limit offset search sort order, sends_mapping (get_categories self
        limit offset search sort order)) /\
      (forall search, sends_mapping (get_companies self search)) /\
      (forall limit offset search order_number sort order expand, sends_mapping
        (get_components self limit offset search order_number sort order expand)) /\
      (forall limit offset search order_number sort order expand category_id
        company_id manufacturer_id, sends_mapping (get_consumables self limit
        offset search order_number sort order expand category_id company_id
        manufacturer_id)) /\
      sends_mapping (get_fields self) /\
      sends_mapping (get_fieldsets self) /\
      (forall limit offset search order_number sort order expand, sends_mapping
        (get_licenses self limit offset search order_number sort order expand)) /\
      (forall limit offset search sort order, sends_mapping (get_locations self
        limit offset search sort order)) /\
      (forall limit offset search sort order asset_id, sends_mapping
        (get_maintenaces self limit offset search sort order asset_id)) /\
      (forall search, sends_mapping (get_manufacturers self search)) /\
      (forall limit offset search sort order, sends_mapping (get_models self limit
        offset search sort order)) /\
      (forall limit offset search sort order, sends_mapping (get_status_labels
        self limit offset search sort order)) /\
      (forall search limit offset sort order group_id company_id department_id
        deleted, sends_mapping (get_users self search limit offset sort order
        group_id company_id department_id deleted)) /\
      sends_mapping (get_suppliers self)).
Proof.
  intros self. split; [|split; [|split]].
  - intros limit offset search order_number sort order expand t
      Hl Ho Hs Hn Hsort Hord He.
    cbv zeta. split; [reflexivity|].
    unfold get_accessories.
    rewrite !bind_checked
      by auto using ok_int, ok_str, ok_bool, ok_enum.
    apply get_str_run.
  - intros t. reflexivity.
  - intros limit offset search order_number sort order expand.
    unfold get_accessories.
    repeat (apply every_request_bind; [auto with checks |]).
    apply sends_str_get.
  - repeat split; intros; run_listing.
Qed.

(** ** One request per method *)

(** Every public method other than the lookups by name and [delete_company]
    either raises before it sends anything or sends exactly one request and
    returns the body of the response as it is (75 methods). *)
Lemma each_method_one_call (self : SnipeAPI) :
  let any := fun _ : request => True in
  (forall name qty category_id order_number purchase_cost purchase_date
    model_number company_id location_id manufacturer_id supplier_id, one_call
    self any (create_accessory self name qty category_id order_number
    purchase_cost purchase_date model_number company_id location_id
    manufacturer_id supplier_id)) /\
  (forall limit offset search order_number sort order expand, one_call self
    any (get_accessories self limit offset search order_number sort order
    expand)) /\
  (forall accessory_id, one_call self any (get_accessory_by_id self
    accessory_id)) /\
  (forall status_id model_id asset_tag name, one_call self any (create_asset
    self status_id model_id asset_tag name)) /\
  (forall asset_id, one_call self any (delete_asset self asset_id)) /\
  (forall limit offset search order_number sort order model_id category_id
    manufacturer_id company_id location_id status status_id, one_call self any
    (get_assets self limit offset search order_number sort order model_id
    category_id manufacturer_id company_id location_id status status_id)) /\
  (forall asset_id, one_call self any (get_asset_by_id self asset_id)) /\
  (forall asset_serial, one_call self any (get_asset_by_serial self
    asset_serial)) /\
  (forall asset_tag, one_call self any (get_asset_by_tag self asset_tag)) /\
  (forall status_label_id, one_call self any (get_assets_by_status_id self
    status_label_id)) /\
  (forall asset_id asset_tag notes status_id model_id last_checkout
    assigned_to company_id serial order_number warranty_months purchase_cost
    purchase_date requestable archived rtd_location_id name, one_call self any
    (update_asset self asset_id asset_tag notes status_id model_id
    last_checkout assigned_to company_id serial order_number warranty_months
    purchase_cost purchase_date requestable archived rtd_location_id name)) /\
  (forall name category_type use_default_eula require_acceptance
    checkin_email, one_call self any (create_category self name category_type
    use_default_eula require_acceptance checkin_email)) /\
  (forall category_id, one_call self any (delete_category self category_id)) /\
  (forall limit offset search sort order, one_call self any (get_categories
    self limit offset search sort order)) /\
  (forall category_id, one_call self any (get_category_by_id self
    category_id)) /\
  (forall category_id name category_type use_default_eula require_acceptance
    checkin_email, one_call self any (update_category self category_id name
    category_type use_default_eula require_acceptance checkin_email)) /\
  (forall name, one_call self any (create_company self name)) /\
  (forall search, one_call self any (get_companies self search)) /\
  (forall company_id, one_call self any (get_company_by_id self company_id)) /\
  (forall company_id name, one_call self any (update_company self company_id
    name)) /\
  (forall name qty category_id, one_call self any (create_component self name
    qty category_id)) /\
  (forall limit offset search order_number sort order expand, one_call self
    any (get_components self limit offset search order_number sort order
    expand)) /\
  (forall component_id, one_call self any (get_component_by_id self
    component_id)) /\
  (forall name qty category_id, one_call self any (create_consumable self name
    qty category_id)) /\
  (forall limit offset search order_number sort order expand category_id
    company_id manufacturer_id, one_call self any (get_consumables self limit
    offset search order_number sort order expand category_id company_id
    manufacturer_id)) /\
  (forall consumable_id, one_call self any (get_consumable_by_id self
    consumable_id)) /\
  (forall name element field_values fmt custom_format help_text show_in_email
    field_encrypted, one_call self any (create_field self name element
    field_values fmt custom_format help_text show_in_email field_encrypted)) /\
  (forall field_id, one_call self any (delete_field self field_id)) /\
  one_call self any (get_fields self) /\
  (forall field_id, one_call self any (get_field_by_id self field_id)) /\
  (forall field_id name element field_values fmt custom_format help_text
    show_in_email field_encrypted, one_call self any (update_field self
    field_id name element field_values fmt custom_format help_text
    show_in_email field_encrypted)) /\
  (forall name, one_call self any (create_fieldset self name)) /\
  (forall fieldset_id, one_call self any (delete_fieldset self fieldset_id)) /\
  one_call self any (get_fieldsets self) /\
  (forall fieldset_id, one_call self any (get_fieldset_by_id self
    fieldset_id)) /\
  (forall fieldset_id name, one_call self any (update_fieldset self
    fieldset_id name)) /\
  (forall name seats category_id product_key company_id expiration_date
    license_email license_name maintained manufacturer_id notes order_number
    purchase_cost purchase_date purchase_order reassignable serial supplier_id
    termination_date, one_call self any (create_license self name seats
    category_id product_key company_id expiration_date license_email
    license_name maintained manufacturer_id notes order_number purchase_cost
    purchase_date purchase_order reassignable serial supplier_id
    termination_date)) /\
  (forall license_id, one_call self any (delete_license self license_id)) /\
  (forall limit offset search order_number sort order expand, one_call self
    any (get_licenses self limit offset search order_number sort order
    expand)) /\
  (forall license_id, one_call self any (get_license_by_id self license_id)) /\
  (forall license_id name seats company_id expiration_date license_email
    license_name maintained manufacturer_id notes order_number purchase_cost
    purchase_date purchase_order reassignable serial supplier_id
    termination_date, one_call self any (update_license self license_id name
    seats company_id expiration_date license_email license_name maintained
    manufacturer_id notes order_number purchase_cost purchase_date
    purchase_order reassignable serial supplier_id termination_date)) /\
  (forall name address address2 city state country zipcode, one_call self any
    (create_location self name address address2 city state country zipcode)) /\
  (forall location_id, one_call self any (delete_location self location_id)) /\
  (forall limit offset search sort order, one_call self any (get_locations
    self limit offset search sort order)) /\
  (forall location_id, one_call self any (get_location_by_id self
    location_id)) /\
  (forall location_id name address address2 city state country zipcode,
    one_call self any (update_location self location_id name address address2
    city state country zipcode)) /\
  (forall name address address2 state country zipcode, one_call self any
    (create_maintenace self name address address2 state country zipcode)) /\
  (forall limit offset search sort order asset_id, one_call self any
    (get_maintenaces self limit offset search sort order asset_id)) /\
  (forall name, one_call self any (create_manufacturer self name)) /\
  (forall manufacturer_id, one_call self any (delete_manufacturer self
    manufacturer_id)) /\
  (forall search, one_call self any (get_manufacturers self search)) /\
  (forall manufacturer_id, one_call self any (get_manufacturer_by_id self
    manufacturer_id)) /\
  (forall manufacturer_id name, one_call self any (update_manufacturer self
    manufacturer_id name)) /\
  (forall name category_id manufacturer_id model_number eol fieldset_id,
    one_call self any (create_model self name category_id manufacturer_id
    model_number eol fieldset_id)) /\
  (forall model_id, one_call self any (delete_model self model_id)) /\
  (forall limit offset search sort order, one_call self any (get_models self
    limit offset search sort order)) /\
  (forall model_id, one_call self any (get_model_by_id self model_id)) /\
  (forall model_id name category_id manufacturer_id model_number eol
    fieldset_id, one_call self any (update_model self model_id name
    category_id manufacturer_id model_number eol fieldset_id)) /\
  (forall name type_name, one_call self any (create_status_label self name
    type_name)) /\
  (forall status_label_id, one_call self any (delete_status_label self
    status_label_id)) /\
  (forall limit offset search sort order, one_call self any (get_status_labels
    self limit offset search sort order)) /\
  (forall status_label_id, one_call self any (get_status_label_by_id self
    status_label_id)) /\
  (forall status_label_id name type_name, one_call self any
    (update_status_label self status_label_id name type_name)) /\
  (forall first_name username password last_name email permissions activated
    phone jobtitle manager_id employee_num notes company_id
    two_factor_enrolled two_factor_optin department_id location_id, one_call
    self any (create_user self first_name username password last_name email
    permissions activated phone jobtitle manager_id employee_num notes
    company_id two_factor_enrolled two_factor_optin department_id
    location_id)) /\
  (forall user_id, one_call self any (delete_user self user_id)) /\
  (forall search limit offset sort order group_id company_id department_id
    deleted, one_call self any (get_users self search limit offset sort order
    group_id company_id department_id deleted)) /\
  (forall user_id, one_call self any (get_user_by_id self user_id)) /\
  (forall user_id, one_call self any (get_users_checked_out_assets self
    user_id)) /\
  (forall user_id, one_call self any (get_users_checked_out_accessories self
    user_id)) /\
  (forall user_id first_name username password last_name email permissions
    activated phone jobtitle manager_id employee_num notes company_id
    two_factor_enrolled two_factor_optin department_id location_id, one_call
    self any (update_user self user_id first_name username password last_name
    email permissions activated phone jobtitle manager_id employee_num notes
    company_id two_factor_enrolled two_factor_optin department_id
    location_id)) /\
  (forall name address address2 state city country zipcode contact phone fax
    email url notes, one_call self any (create_supplier self name address
    address2 state city country zipcode contact phone fax email url notes)) /\
  (forall supplier_id, one_call self any (delete_supplier self supplier_id)) /\
  one_call self any (get_suppliers self) /\
  (forall supplier_id, one_call self any (get_supplier_by_id self
    supplier_id)) /\
  (forall supplier_id name address address2 state city country zipcode contact
    phone fax email url notes, one_call self any (update_supplier self
    supplier_id name address address2 state city country zipcode contact phone
    fax email url notes)).
Proof.
  cbv zeta. repeat split; intros; unfold_method.
  all: try (run_method; exact I).
  repeat (apply one_call_bind; [auto with checks |]).
  repeat destruct (py_eq_str _ _); apply one_call_post; exact I.
Qed.

(** ** More on the validation helpers *)

(** X1.  The four scalar helpers compare the exact type: [None] and a value
    of the type pass, every other value raises [ValueError] with the value
    followed by the helper's text, which for the int helper reads
    [is not a string!].  So a bool is refused where an int is expected and
    an int where a float is expected. *)
Theorem scalar_helpers_exact_type :
  forall (v : pyval) (t : log),
    let check h ty text :=
      h v t = if none_or ty v then (Ret tt, t)
              else (Raise (ValueError (py_str v ++ text)), t) in
    check _precondition_str str_t " is not a string!" /\
    check _precondition_int int_t " is not a string!" /\
    check _precondition_float float_t " is not a float!" /\
    check _precondition_bool bool_t " is not a boolean!" /\
    (forall b, none_or int_t (PBool b) = false) /\
    (forall z, none_or float_t (PInt z) = false) /\
    (forall z, none_or bool_t (PInt z) = false).
Proof.
  intros v t. cbv zeta.
  repeat split; try reflexivity; destruct v; reflexivity.
Qed.

Lemma py_in_In (s : string) (enum : list string) :
  py_in (PStr s) enum = true <-> In s enum.
Proof.
  unfold py_in. rewrite existsb_exists. simpl. split.
  - intros [x [Hin E]]. apply String.eqb_eq in E. now subst.
  - intros H. exists s. split; [exact H | apply String.eqb_refl].
Qed.

Lemma py_in_str_only (v : pyval) (enum : list string) :
  py_in v enum = true -> exists s, v = PStr s /\ In s enum.
Proof.
  destruct v; unfold py_in; intros H;
    try (exfalso; induction enum; simpl in H; [discriminate | auto]; fail).
  exists s. split; [reflexivity | now apply py_in_In].
Qed.

(** X2.  The enum helper returns exactly on [None] and on a str that is an
    element of the list (strs compare character by character, so another
    case is another str); on anything else it raises [ValueError] with the
    value and the printed list, and a non-str is refused whatever the
    list. *)
Theorem precondition_enum_members_only :
  forall (v : pyval) (enum : list string) (t : log),
    ((v = PNone \/ exists s, v = PStr s /\ In s enum) /\
     _precondition_enum v enum t = (Ret tt, t))
    \/
    (v <> PNone /\ (forall s, v = PStr s -> ~ In s enum) /\
     _precondition_enum v enum t
     = (Raise (ValueError
                 (py_str v ++ " is not in the accepted values list: "
                  ++ ("[" ++ join ", " (map str_repr enum) ++ "]") ++ "!")),
        t)).
Proof.
  intros v enum t. unfold _precondition_enum.
  destruct (is_None v) eqn:Hn.
  - left. destruct v; try discriminate. split; [now left | reflexivity].
  - destruct (py_in v enum) eqn:Hin.
    + left. split; [right; now apply py_in_str_only | reflexivity].
    + right. split; [intros ->; discriminate|]. split.
      * intros s -> Hs. apply py_in_In in Hs. congruence.
      * unfold py_str at 2. simpl py_repr. now rewrite map_map.
Qed.

Lemma for_each_all_pass (items : list pyval) (body : pyval -> M unit) (t : log) :
  Forall (fun x => body x t = (Ret tt, t)) items ->
  for_each items body t = (Ret tt, t).
Proof.
  intros H. induction H as [|x items Hx _ IH]; simpl; [reflexivity|].
  unfold bind. now rewrite Hx.
Qed.

Lemma for_each_first_failure (pre : list pyval) x post
    (body : pyval -> M unit) (t : log) (e : exn) :
  Forall (fun y => body y t = (Ret tt, t)) pre ->
  body x t = (Raise e, t) ->
  for_each (pre ++ x :: post) body t = (Raise e, t).
Proof.
  intros Hpre Hx. induction Hpre as [|y pre Hy _ IH]; simpl; unfold bind.
  - now rewrite Hx.
  - rewrite Hy. exact IH.
Qed.

(** X3.  The list helper with [item_type='str']: a list passes when every
    element is [None] or a str, the empty list included; otherwise the
    [ValueError] names the first element that is neither, and the elements
    after it are not looked at.  A value that is not a list is refused
    whatever [item_type] is, and under an [item_type] that is none of the
    five known names only the list-ness is checked. *)
Theorem precondition_list_elementwise :
  forall t : log,
    (forall items,
        Forall (fun x => none_or str_t x = true) items ->
        _precondition_list (PList items) (Some "str") t = (Ret tt, t)) /\
    (forall pre x post,
        Forall (fun y => none_or str_t y = true) pre ->
        none_or str_t x = false ->
        _precondition_list (PList (pre ++ x :: post)) (Some "str") t
        = (Raise (ValueError (py_str x ++ " is not a string!")), t)) /\
    (forall v item_type,
        none_or list_t v = false ->
        _precondition_list v item_type t
        = (Raise (ValueError (py_str v ++ " is not a list!")), t)) /\
    (forall items item_type,
        (forall n, In n ["str"; "int"; "bool"; "date"; "float"] ->
                   item_type <> Some n) ->
        _precondition_list (PList items) item_type t = (Ret tt, t)).
Proof.
  intros t. repeat split.
  - intros items H. unfold _precondition_list, bind; simpl.
    rewrite for_each_all_pass; [reflexivity|].
    eapply Forall_impl; [|exact H]. intros x Hx. now apply ok_str.
  - intros pre x post Hpre Hx. unfold _precondition_list, bind; simpl.
    rewrite for_each_first_failure
      with (e := ValueError (py_str x ++ " is not a string!")); [reflexivity | |].
    + eapply Forall_impl; [|exact Hpre]. intros y Hy. now apply ok_str.
    + destruct x; try discriminate; reflexivity.
  - intros v item_type Hv. destruct v; try discriminate; reflexivity.
  - intros items item_type H. unfold _precondition_list, bind; simpl.
    assert (E : forall n, In n ["str"; "int"; "bool"; "date"; "float"] ->
                          item_type_is item_type n = false).
    { intros n Hn. destruct item_type as [s|]; [|reflexivity]. simpl.
      destruct (String.eqb_spec s n); [|reflexivity].
      subst. exfalso. now apply (H n Hn). }
    rewrite !E by (simpl; auto 10). reflexivity.
Qed.

(** ** More on payload assembly *)

Lemma add_to_dict_cases (d : dict) (k : string) (v : pyval) :
  _add_to_dict d k v = d \/
  exists v', truthy (PStr k) = true /\ truthy v' = true /\
             _add_to_dict d k v = dict_set d k v'.
Proof.
  unfold _add_to_dict.
  set (v' := if (k =? "expand")%string && truthy v
             then PStr (lower (py_str v)) else v).
  destruct (truthy (PStr k)) eqn:Hk; [|now left].
  destruct (truthy v') eqn:Hv; [|now left].
  right. exists v'. auto.
Qed.

Lemma add_to_dict_other (d : dict) (k k' : string) (v : pyval) :
  k' <> k -> dict_get (_add_to_dict d k v) k' = dict_get d k'.
Proof.
  intros Hk. destruct (add_to_dict_cases d k v) as [->|[v' [_ [_ ->]]]];
    [reflexivity | now apply dict_get_set_other].
Qed.

Lemma dict_set_keeps (d : dict) (k k' : string) (v : pyval) :
  dict_get d k' <> None -> dict_get (dict_set d k v) k' <> None.
Proof.
  destruct (String.eqb_spec k' k) as [->|Hk].
  - rewrite dict_get_set_same. discriminate.
  - now rewrite dict_get_set_other.
Qed.

(** X4.  [_add_to_dict(d, k, v)] touches no key but [k]: every other key
    reads as before.  It never removes a key, and a falsy [v] does not
    erase what [d] already holds under [k].  When it stores, [d[k]] reads
    back as the stored value: [v] itself unless [k] is [expand]. *)
Theorem add_to_dict_lookup :
  forall (d : dict) (k : string) (v : pyval),
    (forall k', k' <> k -> dict_get (_add_to_dict d k v) k' = dict_get d k') /\
    (forall k', dict_get d k' <> None ->
                dict_get (_add_to_dict d k v) k' <> None) /\
    (truthy v = false -> dict_get (_add_to_dict d k v) k = dict_get d k) /\
    (truthy (PStr k) = true -> truthy v = true -> k <> "expand" ->
     dict_get (_add_to_dict d k v) k = Some v).
Proof.
  intros d k v. repeat split.
  - intros k' Hk. now apply add_to_dict_other.
  - intros k' Hk'. destruct (add_to_dict_cases d k v) as [->|[v' [_ [_ ->]]]];
      [exact Hk' | now apply dict_set_keeps].
  - intros Hv. unfold _add_to_dict. rewrite Hv, andb_false_r.
    cbv zeta. now rewrite Hv, andb_false_r.
  - intros Hk Hv Hne. unfold _add_to_dict.
    destruct (String.eqb_spec k "expand"); [contradiction|]. cbv [andb].
    rewrite Hk, Hv. apply dict_get_set_same.
Qed.

Lemma dict_set_clean (d : dict) (k : string) (v : pyval) :
  clean d -> truthy (PStr k) = true -> truthy v = true ->
  clean (dict_set d k v).
Proof.
  intros Hd Hk Hv. induction Hd as [|[k0 v0] d H0 Hd IH]; simpl.
  - constructor; [now split | constructor].
  - destruct (k0 =? k)%string; constructor;
      [now split | exact Hd | exact H0 | exact IH].
Qed.

Lemma add_to_dict_clean (d : dict) (k : string) (v : pyval) :
  clean d -> clean (_add_to_dict d k v).
Proof.
  intros Hd. destruct (add_to_dict_cases d k v) as [->|[v' [Hk [Hv ->]]]];
    [exact Hd | now apply dict_set_clean].
Qed.

(** X5.  A mapping built from the empty one by calls of [_add_to_dict]
    holds no empty key and no falsy value: no [None], [False], [0], [0.0],
    empty str, empty list or empty dict is ever a field of a payload that
    started empty, whatever was passed; and a call keeps a mapping of that
    kind so. *)
Theorem payload_has_no_falsy_field :
  (forall d k v, clean d -> clean (_add_to_dict d k v)) /\
  (forall fields : list (string * pyval),
      let d := fold_left (fun d kv => _add_to_dict d (fst kv) (snd kv))
                 fields [] in
      clean d /\
      forall k x, dict_get d k = Some x -> k <> "" /\ truthy x = true).
Proof.
  split; [exact add_to_dict_clean|].
  intros fields d.
  assert (Hc : clean d).
  { subst d. generalize (Forall_nil _ : clean []).
    generalize (@nil (string * pyval)) as d0.
    induction fields as [|kv fields IH]; intros d0 H0; simpl; [exact H0|].
    apply IH. now apply add_to_dict_clean. }
  split; [exact Hc|].
  intros k x. clear -Hc. induction Hc as [|[k0 v0] d0 [Hk Hv] _ IH]; simpl.
  - discriminate.
  - destruct (String.eqb_spec k0 k) as [->|_]; [|exact IH].
    intros [= <-]. split; [|exact Hv].
    intros ->. discriminate.
Qed.

(** ** What a method sends for falsy and for missing arguments *)

(** X6.  A flag that is [False], a number that is [0] and a str that is
    empty are treated as if they had been left out: [update_asset] with
    [requestable=False, archived=False] does what it does with both [None],
    [get_assets] with [limit=0, offset=0, search=""] what it does with
    them [None], and [get_users] with [deleted=False] what it does with
    [deleted=None], whatever the other arguments are.  These values cannot
    be transmitted. *)
Theorem falsy_arguments_are_left_out :
  forall (self : SnipeAPI) (t : log),
    (forall asset_id asset_tag notes status_id model_id last_checkout
            assigned_to company_id serial order_number warranty_months
            purchase_cost purchase_date rtd_location_id name,
        update_asset self asset_id asset_tag notes status_id model_id
          last_checkout assigned_to company_id serial order_number
          warranty_months purchase_cost purchase_date (PBool false)
          (PBool false) rtd_location_id name t
        = update_asset self asset_id asset_tag notes status_id model_id
            last_checkout assigned_to company_id serial order_number
            warranty_months purchase_cost purchase_date PNone PNone
            rtd_location_id name t) /\
    (forall order_number sort order model_id category_id manufacturer_id
            company_id location_id status status_id,
        get_assets self (PInt 0) (PInt 0) (PStr "") order_number sort order
          model_id category_id manufacturer_id company_id location_id status
          status_id t
        = get_assets self PNone PNone PNone order_number sort order model_id
            category_id manufacturer_id company_id location_id status
            status_id t) /\
    (forall search limit offset sort order group_id company_id department_id,
        get_users self search limit offset sort order group_id company_id
          department_id (PBool false) t
        = get_users self search limit offset sort order group_id company_id
            department_id PNone t).
Proof.
  intros self t. repeat split; intros; reflexivity.
Qed.

(** X7.  An update method whose payload starts empty, called with an id
    that passes the check and nothing to change, still sends its PATCH, to
    the path of the id and without a body. *)
Theorem update_with_nothing_to_change :
  forall (self : SnipeAPI) (id : pyval) (t : log),
    none_or int_t id = true ->
    let sent r := (Ret (_session self t r), (t ++ [r])%list) in
    update_asset self id PNone PNone PNone PNone PNone PNone PNone PNone PNone
      PNone PNone PNone PNone PNone PNone PNone t = sent (mkRequest PATCH
      (_server self ++ "/api/v1/hardware/" ++ py_str id) None None) /\
    update_license self id PNone PNone PNone PNone PNone PNone PNone PNone
      PNone PNone PNone PNone PNone PNone PNone PNone PNone t = sent
      (mkRequest PATCH (_server self ++ "/api/v1/licenses/" ++ py_str id) None
      None) /\
    update_location self id PNone PNone PNone PNone PNone PNone PNone t = sent
      (mkRequest PATCH (_server self ++ "/api/v1/locations/" ++ py_str id)
      None None) /\
    update_user self id PNone PNone PNone PNone PNone PNone PNone PNone PNone
      PNone PNone PNone PNone PNone PNone PNone PNone t = sent (mkRequest
      PATCH (_server self ++ "/api/v1/users/" ++ py_str id) None None) /\
    update_supplier self id PNone PNone PNone PNone PNone PNone PNone PNone
      PNone PNone PNone PNone PNone t = sent (mkRequest PATCH (_server self ++
      "/api/v1/suppliers/" ++ py_str id) None None).
Proof.
  intros self id t H. cbv zeta.
  destruct id; try discriminate H; repeat split; reflexivity.
Qed.

(** X8.  A listing method called without arguments sends a GET on its
    collection path without query parameters ([get_accessories], which
    sends the text of the empty mapping, is not among them). *)
Theorem listing_without_arguments :
  forall (self : SnipeAPI) (t : log),
    let bare path :=
      let r := mkRequest GET (_server self ++ path) None None in
      (Ret (_session self t r), (t ++ [r])%list) in
    get_assets self PNone PNone PNone PNone PNone PNone PNone PNone PNone
      PNone PNone PNone PNone t = bare "/api/v1/hardware" /\
    get_categories self PNone PNone PNone PNone PNone t = bare
      "/api/v1/categories" /\
    get_companies self PNone t = bare "/api/v1/companies" /\
    get_components self PNone PNone PNone PNone PNone PNone PNone t = bare
      "/api/v1/components" /\
    get_consumables self PNone PNone PNone PNone PNone PNone PNone PNone PNone
      PNone t = bare "/api/v1/consumables" /\
    get_fields self t = bare "/api/v1/fields" /\
    get_fieldsets self t = bare "/api/v1/fieldsets" /\
    get_licenses self PNone PNone PNone PNone PNone PNone PNone t = bare
      "/api/v1/licenses" /\
    get_locations self PNone PNone PNone PNone PNone t = bare
      "/api/v1/locations" /\
    get_maintenaces self PNone PNone PNone PNone PNone PNone t = bare
      "/api/v1/maintenances" /\
    get_manufacturers self PNone t = bare "/api/v1/manufacturers" /\
    get_models self PNone PNone PNone PNone PNone t = bare "/api/v1/models" /\
    get_status_labels self PNone PNone PNone PNone PNone t = bare
      "/api/v1/statuslabels" /\
    get_users self PNone PNone PNone PNone PNone PNone PNone PNone PNone t =
      bare "/api/v1/users" /\
    get_suppliers self t = bare "/api/v1/suppliers".
Proof. intros self t. cbv zeta. repeat split; reflexivity. Qed.

(** ** Lookups by id and deletions *)

(** X9.  Every lookup by id, the three lookups under an id and the
    lookups by serial and by tag: when the argument is [None] or of the
    checked type (int; str for serial and tag), one GET without query
    parameters goes to the path with [str] of the argument in it and the
    body of the response is returned; otherwise [ValueError] is raised with
    the argument followed by [is not a string!] and nothing is sent.
    [None] passes: it is sent as the path segment [None]. *)
Theorem lookups_by_id :
  forall self : SnipeAPI,
    let lookup ty (f : SnipeAPI -> pyval -> M pyval) (path : string -> string) :=
      forall (v : pyval) (t : log),
        f self v t =
          if none_or ty v
          then let r := mkRequest GET (_server self ++ path (py_str v))
                          None None in
               (Ret (_session self t r), (t ++ [r])%list)
          else (Raise (ValueError (py_str v ++ " is not a string!")), t) in
    let by_id := lookup int_t in
    by_id get_accessory_by_id (fun id => "/api/v1/accessories/" ++ id) /\
    by_id get_asset_by_id (fun id => "/api/v1/hardware/" ++ id) /\
    by_id get_assets_by_status_id (fun id => "/api/v1/statuslabels/" ++ id ++ "/assetlist") /\
    by_id get_category_by_id (fun id => "/api/v1/categories/" ++ id) /\
    by_id get_company_by_id (fun id => "/api/v1/companies/" ++ id) /\
    by_id get_component_by_id (fun id => "/api/v1/components/" ++ id) /\
    by_id get_consumable_by_id (fun id => "/api/v1/consumables/" ++ id) /\
    by_id get_field_by_id (fun id => "/api/v1/fields/" ++ id) /\
    by_id get_fieldset_by_id (fun id => "/api/v1/fieldsets/" ++ id) /\
    by_id get_license_by_id (fun id => "/api/v1/licenses/" ++ id) /\
    by_id get_location_by_id (fun id => "/api/v1/locations/" ++ id) /\
    by_id get_manufacturer_by_id (fun id => "/api/v1/manufacturers/" ++ id) /\
    by_id get_model_by_id (fun id => "/api/v1/models/" ++ id) /\
    by_id get_status_label_by_id (fun id => "/api/v1/statuslabels/" ++ id) /\
    by_id get_user_by_id (fun id => "/api/v1/users/" ++ id) /\
    by_id get_users_checked_out_assets (fun id => "/api/v1/users/" ++ id ++ "/assets") /\
    by_id get_users_checked_out_accessories (fun id => "/api/v1/users/" ++ id ++ "/accessories") /\
    by_id get_supplier_by_id (fun id => "/api/v1/suppliers/" ++ id) /\
    lookup str_t get_asset_by_serial
      (fun serial => "/api/v1/hardware/byserial/" ++ serial) /\
    lookup str_t get_asset_by_tag
      (fun tag => "/api/v1/hardware/bytag/" ++ tag) /\
    (forall t, fst (get_asset_by_id self PNone t)
               = Ret (_session self t
                        (mkRequest GET (_server self ++ "/api/v1/hardware/None")
                           None None))).
Proof.
  intros self. cbv zeta.
  repeat split; try (intros v t; destruct v; reflexivity).
Qed.

(** X10.  Every delete method: when the id is [None] or an int, one DELETE
    without body goes to the path of the id; otherwise [ValueError] is
    raised and nothing is sent.  All of them return the body of the
    response except [delete_company], which returns [None]. *)
Theorem deletes_by_id :
  forall self : SnipeAPI,
    let request_of pre id :=
      mkRequest DELETE (_server self ++ pre ++ py_str id) None None in
    let refused id t : outcome pyval * log :=
      (Raise (ValueError (py_str id ++ " is not a string!")), t) in
    let deletes (f : SnipeAPI -> pyval -> M pyval) (pre : string) :=
      forall (id : pyval) (t : log),
        f self id t =
          if none_or int_t id
          then (Ret (_session self t (request_of pre id)),
                (t ++ [request_of pre id])%list)
          else refused id t in
    deletes delete_asset "/api/v1/hardware/" /\
    deletes delete_category "/api/v1/categories/" /\
    deletes delete_field "/api/v1/fields/" /\
    deletes delete_fieldset "/api/v1/fieldsets/" /\
    deletes delete_license "/api/v1/licenses/" /\
    deletes delete_location "/api/v1/locations/" /\
    deletes delete_manufacturer "/api/v1/manufacturers/" /\
    deletes delete_model "/api/v1/models/" /\
    deletes delete_status_label "/api/v1/statuslabels/" /\
    deletes delete_user "/api/v1/users/" /\
    deletes delete_supplier "/api/v1/suppliers/" /\
    (forall (id : pyval) (t : log),
        delete_company self id t =
          if none_or int_t id
          then (Ret PNone, (t ++ [request_of "/api/v1/companies/" id])%list)
          else refused id t).
Proof.
  intros self. cbv zeta.
  repeat split; intros id t; destruct id; reflexivity.
Qed.

(** ** What no method does *)

Lemma prefix_same_head (s a b : string) : prefix (s ++ a) (s ++ b) = prefix a b.
Proof.
  induction s as [|c s IH]; simpl; [reflexivity|].
  destruct (ascii_dec c c); [exact IH | congruence].
Qed.

Lemma api_request_get self path params :
  prefix "/api/v1/" path = true ->
  api_request self (get_request self path params).
Proof.
  intros H. unfold api_request, get_request; simpl.
  rewrite prefix_same_head. repeat split; [exact H | congruence].
Qed.

Lemma api_request_data (v : verb) self path payload :
  v <> GET -> prefix "/api/v1/" path = true ->
  api_request self (data_request v self path payload).
Proof.
  intros Hv H. unfold api_request, data_request; simpl.
  rewrite prefix_same_head. repeat split; [exact H | contradiction].
Qed.

Lemma at_most_one_of_one_call self (P : request -> Prop) (c : M pyval) :
  one_call self P c -> at_most_one P c.
Proof.
  intros H t. destruct (H t) as [[r [HP E]]|[e E]]; rewrite E; simpl.
  - right. now exists r.
  - now left.
Qed.

Lemma at_most_one_bind (P : request -> Prop) (c : M unit) (k : M pyval) :
  checker c -> at_most_one P k -> at_most_one P (c ;; k).
Proof.
  intros Hc Hk t. unfold bind.
  destruct (Hc t) as [E|[e E]]; rewrite E; [apply Hk | now left].
Qed.

Lemma at_most_one_then_quiet (P : request -> Prop) (c : M pyval)
    (k : pyval -> M pyval) :
  at_most_one P c -> (forall x t, snd (k x t) = t) ->
  at_most_one P (x <- c ;; k x).
Proof.
  intros Hc Hk t. unfold bind.
  assert (E : snd (let (o, t') := c t in
                   match o with Ret a => k a t' | Raise e => (Raise e, t') end)
              = snd (c t)).
  { destruct (c t) as [[a|e] t']; simpl; [apply Hk | reflexivity]. }
  destruct (Hc t) as [H|[r [HP H]]].
  - left. now rewrite <- H at 2.
  - right. exists r. split; [exact HP|]. now rewrite <- H.
Qed.

Ltac api_side :=
  first [ apply api_request_get; reflexivity
        | apply api_request_data; [discriminate | reflexivity] ].

Ltac run_any_method :=
  match goal with
  | |- at_most_one _ ?c => let h := head_of c in unfold h
  end;
  first
    [ (* a lookup by name: the listing, then the scan of its rows *)
      apply at_most_one_then_quiet; [| intros; apply scan_rows_silent];
      match goal with
      | |- at_most_one _ ?c => let h := head_of c in unfold h
      end;
      eapply at_most_one_of_one_call; run_method; api_side
    | eapply at_most_one_of_one_call; run_method; api_side
    | (* the three flags of a status label *)
      eapply at_most_one_of_one_call;
      repeat (apply one_call_bind; [auto with checks |]);
      repeat destruct (py_eq_str _ _); apply one_call_post; api_side
    | (* a result that is dropped *)
      repeat (apply at_most_one_bind; [auto with checks |]);
      apply at_most_one_then_quiet; [| reflexivity];
      eapply at_most_one_of_one_call; run_method; api_side ].

(** X11.  Whatever the arguments and whatever the server answers, each of
    the 90 public methods leaves the log as it is or adds exactly one
    request to it: never two, and never without keeping the requests already
    there.  That request goes to a path under [/api/v1/] of the configured
    server; a GET carries no body and a POST, PUT, PATCH or DELETE carries
    no query. *)
Theorem each_method_sends_at_most_one_request (self : SnipeAPI) :
  let ok := api_request self in
  (forall name qty category_id order_number purchase_cost purchase_date
    model_number company_id location_id manufacturer_id supplier_id,
    at_most_one ok (create_accessory self name qty category_id order_number
    purchase_cost purchase_date model_number company_id location_id
    manufacturer_id supplier_id)) /\
  (forall limit offset search order_number sort order expand, at_most_one ok
    (get_accessories self limit offset search order_number sort order expand)) /\
  (forall accessory_id, at_most_one ok (get_accessory_by_id self
    accessory_id)) /\
  (forall name, at_most_one ok (get_accessory_by_name self name)) /\
  (forall status_id model_id asset_tag name, at_most_one ok (create_asset self
    status_id model_id asset_tag name)) /\
  (forall asset_id, at_most_one ok (delete_asset self asset_id)) /\
  (forall limit offset search order_number sort order model_id category_id
    manufacturer_id company_id location_id status status_id, at_most_one ok
    (get_assets self limit offset search order_number sort order model_id
    category_id manufacturer_id company_id location_id status status_id)) /\
  (forall asset_id, at_most_one ok (get_asset_by_id self asset_id)) /\
  (forall name, at_most_one ok (get_asset_by_name self name)) /\
  (forall asset_serial, at_most_one ok (get_asset_by_serial self
    asset_serial)) /\
  (forall asset_tag, at_most_one ok (get_asset_by_tag self asset_tag)) /\
  (forall status_label_id, at_most_one ok (get_assets_by_status_id self
    status_label_id)) /\
  (forall asset_id asset_tag notes status_id model_id last_checkout
    assigned_to company_id serial order_number warranty_months purchase_cost
    purchase_date requestable archived rtd_location_id name, at_most_one ok
    (update_asset self asset_id asset_tag notes status_id model_id
    last_checkout assigned_to company_id serial order_number warranty_months
    purchase_cost purchase_date requestable archived rtd_location_id name)) /\
  (forall name category_type use_default_eula require_acceptance
    checkin_email, at_most_one ok (create_category self name category_type
    use_default_eula require_acceptance checkin_email)) /\
  (forall category_id, at_most_one ok (delete_category self category_id)) /\
  (forall limit offset search sort order, at_most_one ok (get_categories self
    limit offset search sort order)) /\
  (forall category_id, at_most_one ok (get_category_by_id self category_id)) /\
  (forall name, at_most_one ok (get_category_by_name self name)) /\
  (forall category_id name category_type use_default_eula require_acceptance
    checkin_email, at_most_one ok (update_category self category_id name
    category_type use_default_eula require_acceptance checkin_email)) /\
  (forall name, at_most_one ok (create_company self name)) /\
  (forall company_id, at_most_one ok (delete_company self company_id)) /\
  (forall search, at_most_one ok (get_companies self search)) /\
  (forall company_id, at_most_one ok (get_company_by_id self company_id)) /\
  (forall name, at_most_one ok (get_company_by_name self name)) /\
  (forall company_id name, at_most_one ok (update_company self company_id
    name)) /\
  (forall name qty category_id, at_most_one ok (create_component self name qty
    category_id)) /\
  (forall limit offset search order_number sort order expand, at_most_one ok
    (get_components self limit offset search order_number sort order expand)) /\
  (forall component_id, at_most_one ok (get_component_by_id self
    component_id)) /\
  (forall name, at_most_one ok (get_component_by_name self name)) /\
  (forall name qty category_id, at_most_one ok (create_consumable self name
    qty category_id)) /\
  (forall limit offset search order_number sort order expand category_id
    company_id manufacturer_id, at_most_one ok (get_consumables self limit
    offset search order_number sort order expand category_id company_id
    manufacturer_id)) /\
  (forall consumable_id, at_most_one ok (get_consumable_by_id self
    consumable_id)) /\
  (forall name, at_most_one ok (get_consumable_by_name self name)) /\
  (forall name element field_values fmt custom_format help_text show_in_email
    field_encrypted, at_most_one ok (create_field self name element
    field_values fmt custom_format help_text show_in_email field_encrypted)) /\
  (forall field_id, at_most_one ok (delete_field self field_id)) /\
  at_most_one ok (get_fields self) /\
  (forall field_id, at_most_one ok (get_field_by_id self field_id)) /\
  (forall name, at_most_one ok (get_field_by_name self name)) /\
  (forall field_id name element field_values fmt custom_format help_text
    show_in_email field_encrypted, at_most_one ok (update_field self field_id
    name element field_values fmt custom_format help_text show_in_email
    field_encrypted)) /\
  (forall name, at_most_one ok (create_fieldset self name)) /\
  (forall fieldset_id, at_most_one ok (delete_fieldset self fieldset_id)) /\
  at_most_one ok (get_fieldsets self) /\
  (forall fieldset_id, at_most_one ok (get_fieldset_by_id self fieldset_id)) /\
  (forall name, at_most_one ok (get_fieldset_by_name self name)) /\
  (forall fieldset_id name, at_most_one ok (update_fieldset self fieldset_id
    name)) /\
  (forall name seats category_id product_key company_id expiration_date
    license_email license_name maintained manufacturer_id notes order_number
    purchase_cost purchase_date purchase_order reassignable serial supplier_id
    termination_date, at_most_one ok (create_license self name seats
    category_id product_key company_id expiration_date license_email
    license_name maintained manufacturer_id notes order_number purchase_cost
    purchase_date purchase_order reassignable serial supplier_id
    termination_date)) /\
  (forall license_id, at_most_one ok (delete_license self license_id)) /\
  (forall limit offset search order_number sort order expand, at_most_one ok
    (get_licenses self limit offset search order_number sort order expand)) /\
  (forall license_id, at_most_one ok (get_license_by_id self license_id)) /\
  (forall name, at_most_one ok (get_license_by_name self name)) /\
  (forall license_id name seats company_id expiration_date license_email
    license_name maintained manufacturer_id notes order_number purchase_cost
    purchase_date purchase_order reassignable serial supplier_id
    termination_date, at_most_one ok (update_license self license_id name
    seats company_id expiration_date license_email license_name maintained
    manufacturer_id notes order_number purchase_cost purchase_date
    purchase_order reassignable serial supplier_id termination_date)) /\
  (forall name address address2 city state country zipcode, at_most_one ok
    (create_location self name address address2 city state country zipcode)) /\
  (forall location_id, at_most_one ok (delete_location self location_id)) /\
  (forall limit offset search sort order, at_most_one ok (get_locations self
    limit offset search sort order)) /\
  (forall location_id, at_most_one ok (get_location_by_id self location_id)) /\
  (forall name, at_most_one ok (get_location_by_name self name)) /\
  (forall location_id name address address2 city state country zipcode,
    at_most_one ok (update_location self location_id name address address2
    city state country zipcode)) /\
  (forall name address address2 state country zipcode, at_most_one ok
    (create_maintenace self name address address2 state country zipcode)) /\
  (forall limit offset search sort order asset_id, at_most_one ok
    (get_maintenaces self limit offset search sort order asset_id)) /\
  (forall name, at_most_one ok (create_manufacturer self name)) /\
  (forall manufacturer_id, at_most_one ok (delete_manufacturer self
    manufacturer_id)) /\
  (forall search, at_most_one ok (get_manufacturers self search)) /\
  (forall manufacturer_id, at_most_one ok (get_manufacturer_by_id self
    manufacturer_id)) /\
  (forall name, at_most_one ok (get_manufacturer_by_name self name)) /\
  (forall manufacturer_id name, at_most_one ok (update_manufacturer self
    manufacturer_id name)) /\
  (forall name category_id manufacturer_id model_number eol fieldset_id,
    at_most_one ok (create_model self name category_id manufacturer_id
    model_number eol fieldset_id)) /\
  (forall model_id, at_most_one ok (delete_model self model_id)) /\
  (forall limit offset search sort order, at_most_one ok (get_models self
    limit offset search sort order)) /\
  (forall model_id, at_most_one ok (get_model_by_id self model_id)) /\
  (forall name, at_most_one ok (get_model_by_name self name)) /\
  (forall model_id name category_id manufacturer_id model_number eol
    fieldset_id, at_most_one ok (update_model self model_id name category_id
    manufacturer_id model_number eol fieldset_id)) /\
  (forall name type_name, at_most_one ok (create_status_label self name
    type_name)) /\
  (forall status_label_id, at_most_one ok (delete_status_label self
    status_label_id)) /\
  (forall limit offset search sort order, at_most_one ok (get_status_labels
    self limit offset search sort order)) /\
  (forall status_label_id, at_most_one ok (get_status_label_by_id self
    status_label_id)) /\
  (forall status_label_id name type_name, at_most_one ok (update_status_label
    self status_label_id name type_name)) /\
  (forall first_name username password last_name email permissions activated
    phone jobtitle manager_id employee_num notes company_id
    two_factor_enrolled two_factor_optin department_id location_id,
    at_most_one ok (create_user self first_name username password last_name
    email permissions activated phone jobtitle manager_id employee_num notes
    company_id two_factor_enrolled two_factor_optin department_id
    location_id)) /\
  (forall user_id, at_most_one ok (delete_user self user_id)) /\
  (forall search limit offset sort order group_id company_id department_id
    deleted, at_most_one ok (get_users self search limit offset sort order
    group_id company_id department_id deleted)) /\
  (forall user_id, at_most_one ok (get_user_by_id self user_id)) /\
  (forall name, at_most_one ok (get_user_by_name self name)) /\
  (forall user_id, at_most_one ok (get_users_checked_out_assets self user_id)) /\
  (forall user_id, at_most_one ok (get_users_checked_out_accessories self
    user_id)) /\
  (forall user_id first_name username password last_name email permissions
    activated phone jobtitle manager_id employee_num notes company_id
    two_factor_enrolled two_factor_optin department_id location_id,
    at_most_one ok (update_user self user_id first_name username password
    last_name email permissions activated phone jobtitle manager_id
    employee_num notes company_id two_factor_enrolled two_factor_optin
    department_id location_id)) /\
  (forall name address address2 state city country zipcode contact phone fax
    email url notes, at_most_one ok (create_supplier self name address
    address2 state city country zipcode contact phone fax email url notes)) /\
  (forall supplier_id, at_most_one ok (delete_supplier self supplier_id)) /\
  at_most_one ok (get_suppliers self) /\
  (forall supplier_id, at_most_one ok (get_supplier_by_id self supplier_id)) /\
  (forall name, at_most_one ok (get_supplier_by_name self name)) /\
  (forall supplier_id name address address2 state city country zipcode contact
    phone fax email url notes, at_most_one ok (update_supplier self
    supplier_id name address address2 state city country zipcode contact phone
    fax email url notes)).
Proof.
  cbv zeta. repeat split; intros; run_any_method.
Qed.

(** ** More on the lookups by name *)

Lemma scan_rows_not_dict (body : pyval) (name : string) (t : log) :
  type_of body <> dict_t -> scan_rows body name t = (Raise TypeError, t).
Proof. destruct body; simpl; intros H; try reflexivity. now elim H. Qed.

Lemma scan_rows_no_rows (d : dict) (name : string) (t : log) :
  dict_get d "rows" = None ->
  scan_rows (PDict d) name t = (Raise (KeyError "rows"), t).
Proof. intros H. unfold scan_rows, bind, py_getitem. now rewrite H. Qed.

Lemma first_named_stops (pre : list pyval) row post name t (o : outcome pyval) :
  Forall (named_other name) pre ->
  (forall rest, first_named (row :: rest) name t = (o, t)) ->
  first_named (pre ++ row :: post) name t = (o, t).
Proof.
  intros Hpre Hrow. induction Hpre as [|x pre Hx _ IH]; simpl app.
  - apply Hrow.
  - rewrite first_named_step_other by assumption. exact IH.
Qed.

Lemma first_named_nameless (row : pyval) rest name t :
  nameless row ->
  first_named (row :: rest) name t = (Raise (KeyError "name"), t).
Proof.
  intros [d [-> H]]. simpl. unfold bind, py_getitem. now rewrite H.
Qed.

Lemma first_named_not_dict (row : pyval) rest name t :
  type_of row <> dict_t ->
  first_named (row :: rest) name t = (Raise TypeError, t).
Proof. destruct row; simpl; intros H; try reflexivity. now elim H. Qed.

Lemma scan_errors_after_listing (self : SnipeAPI) (name : string)
    (listing : M pyval) :
  (forall t, exists r,
      listing t = (Ret (_session self t r), (t ++ [r])%list)) ->
  forall t, exists r,
    let run := (body <- listing ;; scan_rows body name) t in
    snd run = (t ++ [r])%list /\
    (type_of (_session self t r) <> dict_t -> fst run = Raise TypeError) /\
    (forall d,
        _session self t r = PDict d -> dict_get d "rows" = None ->
        fst run = Raise (KeyError "rows")) /\
    (forall d rows pre row post,
        _session self t r = PDict d -> dict_get d "rows" = Some (PList rows) ->
        rows = (pre ++ row :: post)%list ->
        Forall (named_other name) pre ->
        (nameless row -> fst run = Raise (KeyError "name")) /\
        (type_of row <> dict_t -> fst run = Raise TypeError)).
Proof.
  intros Hl t. destruct (Hl t) as [r Hr]. exists r. cbv zeta.
  unfold bind. rewrite Hr. split; [apply scan_rows_silent|].
  split; [|split].
  - intros H. now rewrite scan_rows_not_dict.
  - intros d Hd Hrows. now rewrite Hd, scan_rows_no_rows.
  - intros d rows pre row post Hd Hrows -> Hpre.
    rewrite Hd, (scan_rows_list _ _ _ Hrows). split; intros H.
    + rewrite first_named_stops with (o := Raise (KeyError "name"));
        [reflexivity | exact Hpre |].
      intros rest. now apply first_named_nameless.
    + rewrite first_named_stops with (o := Raise TypeError);
        [reflexivity | exact Hpre |].
      intros rest. now apply first_named_not_dict.
Qed.

(** X12.  How each of the fourteen lookups by name fails, after its
    listing request has been sent: [TypeError] when the body of the
    response is not a dict, [KeyError('rows')] when it is a dict without
    [rows], and, when the scan reaches a row before any match,
    [KeyError('name')] if that row is a dict without [name] and [TypeError]
    if it is not a dict.  The rows after a bad one are not looked at, so a
    later match is not returned. *)
Theorem get_by_name_failures : Forall by_name_errors by_name_methods.
Proof.
  unfold by_name_methods.
  repeat (apply Forall_cons || apply Forall_nil);
    intros self name;
    apply scan_errors_after_listing; intros t; eexists; apply get_run.
Qed.

Lemma snd_bind_quiet (c : M pyval) (k : pyval -> M pyval) (t : log) :
  (forall x t', snd (k x t') = t') -> snd ((x <- c ;; k x) t) = snd (c t).
Proof.
  intros Hk. unfold bind. destruct (c t) as [[a|e] t']; simpl;
    [apply Hk | reflexivity].
Qed.

(** X13.  Which lookups by name let the server filter.  Nine of them send
    [{"search": name}] with their listing GET when [name] is not empty and
    no query when it is; the lookups of companies, fields, fieldsets and
    suppliers always list without a query and filter on the client alone;
    the lookup of accessories sends the text of the mapping. *)
Theorem by_name_search_transmission :
  forall (self : SnipeAPI) (name : string) (t : log),
    let mapping : dict :=
      if (name =? "")%string then [] else [("search", PStr name)] in
    let query : option string :=
      if (name =? "")%string then None else Some (json_dumps (PDict mapping)) in
    Forall (fun fp : (SnipeAPI -> string -> M pyval) * string =>
              snd (fst fp self name t)
              = (t ++ [mkRequest GET (_server self ++ snd fp) query None])%list)
      searching_by_name /\
    Forall (fun fp : (SnipeAPI -> string -> M pyval) * string =>
              snd (fst fp self name t)
              = (t ++ [mkRequest GET (_server self ++ snd fp) None None])%list)
      unfiltered_by_name /\
    snd (get_accessory_by_name self name t)
    = (t ++ [mkRequest GET (_server self ++ "/api/v1/accessories")
               (Some (json_dumps (PStr (py_str (PDict mapping))))) None])%list.
Proof.
  intros self name t. cbv zeta.
  unfold searching_by_name, unfiltered_by_name.
  repeat split; repeat (apply Forall_cons || apply Forall_nil); cbn [fst snd];
    match goal with
    | |- snd (?f _ _ _) = _ => unfold f
    end;
    (rewrite snd_bind_quiet by (intros; apply scan_rows_silent));
    destruct (name =? "")%string eqn:E;
    match goal with
    | |- snd (?c _) = _ => let h := head_of c in unfold h
    end;
    unfold bind, _add_to_dict; simpl; rewrite ?E; reflexivity.
Qed.

(** ** Users: the password and its confirmation *)

Lemma add_to_dict_same (d : dict) (k : string) (v : pyval) :
  truthy (PStr k) = true -> truthy v = true -> k <> "expand" ->
  dict_get (_add_to_dict d k v) k = Some v.
Proof.
  intros Hk Hv Hne. unfold _add_to_dict.
  destruct (String.eqb_spec k "expand"); [contradiction|]. cbv [andb].
  rewrite Hk, Hv. apply dict_get_set_same.
Qed.

Lemma add_to_dict_falsy (d : dict) (k : string) (v : pyval) :
  truthy v = false -> _add_to_dict d k v = d.
Proof.
  intros Hv. unfold _add_to_dict. rewrite Hv, andb_false_r.
  cbv zeta. now rewrite Hv, andb_false_r.
Qed.

Lemma body_of_dict (d : dict) :
  body_of (PDict d) = None \/ body_of (PDict d) = Some (json_dumps (PDict d)).
Proof. unfold body_of. destruct (truthy (PDict d)); auto. Qed.

Lemma body_of_dict_with (d : dict) (k : string) (x : pyval) :
  dict_get d k = Some x -> body_of (PDict d) = Some (json_dumps (PDict d)).
Proof. destruct d; [discriminate | reflexivity]. Qed.

Lemma every_request_data (P : request -> Prop) (c : M pyval) (r : request)
    (self : SnipeAPI) :
  (forall t, c t = (Ret (_session self t r), (t ++ [r])%list)) ->
  P r -> every_request P c.
Proof.
  intros Hc HP t r'. rewrite Hc. simpl. intros H.
  apply app_inv_head in H. now injection H as <-.
Qed.

(** X14.  Every request [create_user] sends carries the password twice,
    under [password] and under [password_confirmation], with the value it
    was given.  Every request [update_user] sends carries both fields with
    the same value when the password is truthy and neither of them when it
    is [None] or empty: never one without the other. *)
Theorem user_password_and_confirmation :
  forall self : SnipeAPI,
    (forall first_name username password last_name email permissions
            activated phone jobtitle manager_id employee_num notes company_id
            two_factor_enrolled two_factor_optin department_id location_id,
        every_request
          (fun r =>
             exists d : dict,
               req_data r = Some (json_dumps (PDict d)) /\
               dict_get d "password" = Some password /\
               dict_get d "password_confirmation" = Some password)
          (create_user self first_name username password last_name email
             permissions activated phone jobtitle manager_id employee_num
             notes company_id two_factor_enrolled two_factor_optin
             department_id location_id)) /\
    (forall user_id first_name username password last_name email permissions
            activated phone jobtitle manager_id employee_num notes company_id
            two_factor_enrolled two_factor_optin department_id location_id,
        every_request
          (fun r =>
             exists d : dict,
               req_data r = body_of (PDict d) /\
               dict_get d "password" = dict_get d "password_confirmation" /\
               dict_get d "password"
               = if truthy password then Some password else None)
          (update_user self user_id first_name username password last_name
             email permissions activated phone jobtitle manager_id
             employee_num notes company_id two_factor_enrolled
             two_factor_optin department_id location_id)).
Proof.
  intros self. split; intros.
  - unfold create_user.
    repeat (apply every_request_bind; [auto with checks |]).
    cbv zeta.
    match goal with
    | |- every_request _ (_post _ ?p (PDict ?d)) =>
        apply (@every_request_data _ _ (data_request POST self p (PDict d))
                 self);
          [intros t; apply post_run | exists d]
    end.
    repeat split.
    + apply body_of_dict_with with (k := "password") (x := password).
      rewrite !add_to_dict_other by discriminate. reflexivity.
    + rewrite !add_to_dict_other by discriminate. reflexivity.
    + rewrite !add_to_dict_other by discriminate. reflexivity.
  - unfold update_user.
    repeat (apply every_request_bind; [auto with checks |]).
    cbv zeta.
    match goal with
    | |- every_request _ (_patch _ ?p (PDict ?d)) =>
        apply (@every_request_data _ _ (data_request PATCH self p (PDict d))
                 self);
          [intros t; apply patch_run | exists d]
    end.
    split; [reflexivity|].
    destruct (truthy password) eqn:Hp.
    + repeat first
        [ rewrite add_to_dict_other by discriminate
        | rewrite add_to_dict_same
            by first [reflexivity | assumption | discriminate] ].
      now split.
    + repeat first
        [ rewrite add_to_dict_other by discriminate
        | rewrite add_to_dict_falsy by exact Hp ].
      now split.
Qed.

(** ** Status labels without a type *)

(** X15.  [type_name=None] passes the check of [update_status_label], which
    then sends the three flags all false; [create_status_label] with
    [type_name=None] sends the name alone, without a [type] field.  A str
    that is none of the three type names is refused by both before
    anything is sent. *)
Theorem status_label_without_type :
  forall (self : SnipeAPI) (id name : pyval) (t : log),
    none_or int_t id = true -> none_or str_t name = true ->
    (let r := mkRequest POST
                (_server self ++ "/api/v1/statuslabels/" ++ py_str id) None
                (Some (json_dumps
                         (PDict [("name", name); ("deployable", PBool false);
                                 ("pending", PBool false);
                                 ("archived", PBool false)]))) in
     update_status_label self id name PNone t
     = (Ret (_session self t r), (t ++ [r])%list)) /\
    (let r := mkRequest POST (_server self ++ "/api/v1/statuslabels") None
                (Some (json_dumps (PDict [("name", name)]))) in
     create_status_label self name PNone t
     = (Ret (_session self t r), (t ++ [r])%list)) /\
    (forall ty,
        ~ In ty ["deployable"; "pending"; "archived"] ->
        (exists msg, update_status_label self id name (PStr ty) t
                     = (Raise (ValueError msg), t)) /\
        (exists msg, create_status_label self name (PStr ty) t
                     = (Raise (ValueError msg), t))).
Proof.
  intros self id name t Hid Hname.
  assert (Hbad : forall ty, ~ In ty ["deployable"; "pending"; "archived"] ->
                 exists msg,
                   _precondition_enum (PStr ty)
                     ["deployable"; "pending"; "archived"] t
                   = (Raise (ValueError msg), t)).
  { intros ty Hty.
    generalize (precondition_enum_validates
                  ["deployable"; "pending"; "archived"] (PStr ty) t).
    destruct (none_or_in _ _) eqn:E.
    - exfalso. apply Hty. now apply py_in_In.
    - intros [msg [Hm _]]. now exists msg. }
  repeat split.
  - unfold update_status_label.
    rewrite !bind_checked by auto using ok_int, ok_str, ok_enum. reflexivity.
  - unfold create_status_label.
    rewrite !bind_checked by auto using ok_int, ok_str, ok_enum. reflexivity.
  - destruct (Hbad ty H) as [msg Hm]. exists msg.
    unfold update_status_label.
    rewrite !bind_checked by auto using ok_int, ok_str.
    unfold bind. now rewrite Hm.
  - destruct (Hbad ty H) as [msg Hm]. exists msg.
    unfold create_status_label.
    rewrite !bind_checked by auto using ok_int, ok_str.
    unfold bind. now rewrite Hm.
Qed.

(** ** Which arguments a method accepts *)

Lemma check_step (c : M unit) (b0 b : bool) (k : M pyval) (t : log)
    (X : outcome pyval * log) :
  (if b0 then c t = (Ret tt, t)
   else exists msg, c t = (Raise (ValueError msg), t)) ->
  (if b then k t = X else exists msg, k t = (Raise (ValueError msg), t)) ->
  if b0 && b then (c ;; k) t = X
  else exists msg, (c ;; k) t = (Raise (ValueError msg), t).
Proof.
  unfold bind. destruct b0; simpl.
  - intros ->. exact (fun H => H).
  - intros [msg ->] _. now exists msg.
Qed.

Lemma validates_step (h : pyval -> M unit) (ok : pyval -> bool) :
  validates h ok ->
  forall v t, if ok v then h v t = (Ret tt, t)
              else exists msg, h v t = (Raise (ValueError msg), t).
Proof.
  intros H v t. generalize (H v t). destruct (ok v); [auto|].
  intros [msg [E _]]. now exists msg.
Qed.

Ltac run_checks :=
  repeat (apply check_step;
          [ first [ apply (validates_step precondition_int_validates)
                  | apply (validates_step precondition_str_validates)
                  | apply (validates_step precondition_bool_validates)
                  | apply (validates_step precondition_float_validates)
                  | apply (validates_step (precondition_enum_validates _)) ]
          |]).


(** X17.  [create_category] sends its POST exactly when [name] is [None]
    or a str, [category_type] [None] or one of the five types, and each of
    the three flags [None] or a bool.  The flag [use_default_eula] travels
    under the key [use_default_uela], as the source spells it: the payload
    never has a field [use_default_eula]. *)
Theorem create_category_accepts :
  forall (self : SnipeAPI)
         (name category_type use_default_eula require_acceptance
          checkin_email : pyval) (t : log),
    let accepted :=
      forallb (fun b : bool => b)
        [none_or str_t name;
         none_or_in ["asset"; "accessory"; "consumable"; "component"; "license"]
           category_type;
         none_or bool_t use_default_eula; none_or bool_t require_acceptance;
         none_or bool_t checkin_email] in
    let payload :=
      fold_left (fun d kv => _add_to_dict d (fst kv) (snd kv))
        [("use_default_uela", use_default_eula);
         ("require_acceptance", require_acceptance);
         ("checkin_email", checkin_email)]
        [("name", name); ("category_type", category_type)] in
    let r := mkRequest POST (_server self ++ "/api/v1/categories") None
               (Some (json_dumps (PDict payload))) in
    (if accepted
     then create_category self name category_type use_default_eula
            require_acceptance checkin_email t
          = (Ret (_session self t r), (t ++ [r])%list)
     else exists msg,
         create_category self name category_type use_default_eula
           require_acceptance checkin_email t
         = (Raise (ValueError msg), t))
    /\ dict_get payload "use_default_eula" = None
    /\ dict_get payload "use_default_uela"
       = (if truthy use_default_eula then Some use_default_eula else None).
Proof.
  intros. split; [|split].
  - subst accepted payload r. cbn [forallb fold_left fst snd].
    unfold create_category.
    run_checks. cbv zeta. rewrite post_run. unfold data_request.
    rewrite body_of_dict_with with (k := "name") (x := name); [reflexivity|].
    rewrite !add_to_dict_other by discriminate. reflexivity.
  - subst payload. simpl fold_left.
    rewrite !add_to_dict_other by discriminate. reflexivity.
  - subst payload. simpl fold_left.
    rewrite !add_to_dict_other by discriminate.
    destruct (truthy use_default_eula) eqn:E.
    + now rewrite add_to_dict_same by first [reflexivity | assumption | discriminate].
    + rewrite add_to_dict_falsy by exact E. reflexivity.
Qed.

(** X18.  The arguments a create method requires are checked like the
    optional ones, so [None] passes: [create_asset] with [status_id] and
    [model_id] [None] or an int sends both fields as they are, [null]
    included, and [create_company(None)] sends [{"name": null}].  The
    client does not refuse a missing required value. *)
Theorem required_arguments_may_be_None :
  forall (self : SnipeAPI) (t : log),
    let sent verb path data :=
      let r := mkRequest verb (_server self ++ path) None (Some data) in
      (Ret (_session self t r), (t ++ [r])%list) in
    (forall status_id model_id,
        none_or int_t status_id = true -> none_or int_t model_id = true ->
        create_asset self status_id model_id PNone PNone t
        = sent POST "/api/v1/hardware"
            (json_dumps (PDict [("status_id", status_id);
                                ("model_id", model_id)]))) /\
    create_asset self PNone PNone PNone PNone t
    = sent POST "/api/v1/hardware" (qq "{`status_id`: null, `model_id`: null}") /\
    create_company self PNone t
    = sent POST "/api/v1/companies" (qq "{`name`: null}").
Proof.
  intros self t. cbv zeta. repeat split.
  intros status_id model_id Hs Hm. unfold create_asset.
  rewrite !bind_checked by auto using ok_int, ok_str. reflexivity.
Qed.

(** ** The sample driver *)


(** ** A date argument of the wrong type *)

Lemma bind_raised {A} (c : M unit) (k : M A) (t : log) (e : exn) :
  c t = (Raise e, t) -> (c ;; k) t = (Raise e, t).
Proof. intros H. unfold bind. now rewrite H. Qed.

(** X20.  In a method that checks a date, here [update_asset] and its
    [last_checkout], once the arguments checked before it have passed: a
    [last_checkout] that is neither [None] nor a str makes the method raise
    [TypeError], not [ValueError], and a str that [strptime] does not parse
    makes it raise [ValueError] with the str followed by [is not a date!].
    Nothing is sent in either case. *)
Theorem update_asset_bad_last_checkout :
  forall (self : SnipeAPI)
         (asset_id asset_tag notes status_id model_id last_checkout
          assigned_to company_id serial order_number warranty_months
          purchase_cost purchase_date requestable archived rtd_location_id
          name : pyval) (t : log),
    none_or int_t asset_id = true -> none_or str_t asset_tag = true ->
    none_or str_t notes = true -> none_or int_t status_id = true ->
    none_or int_t model_id = true ->
    let run :=
      update_asset self asset_id asset_tag notes status_id model_id
        last_checkout assigned_to company_id serial order_number
        warranty_months purchase_cost purchase_date requestable archived
        rtd_location_id name t in
    (none_or str_t last_checkout = false -> run = (Raise TypeError, t)) /\
    (forall s msg,
        last_checkout = PStr s -> strptime_ymd lib s = Some msg ->
        run = (Raise (ValueError (s ++ " is not a date!")), t)).
Proof.
  intros. subst run. unfold update_asset.
  rewrite !bind_checked by auto using ok_int, ok_str.
  split.
  - intros Hd. apply bind_raised. now apply precondition_date_other_kind.
  - intros s msg -> Hs. apply bind_raised.
    generalize (precondition_date_str s t). now rewrite Hs.
Qed.

End Client.

(** ** Closed instances

    The statements above at concrete inputs, on the client of the sample
    driver and the stand-in library. *)

Lemma add_to_dict_spec_witness :
  (forall f, float_repr mock_lib f <> "") /\
  _add_to_dict mock_lib [("limit", PInt 5)] "expand" (PBool true)
  = [("limit", PInt 5); ("expand", PStr "true")].
Proof.
  assert (H : forall f, float_repr mock_lib f <> "") by (intros f; discriminate).
  split; [exact H|].
  rewrite (proj1 (@add_to_dict_spec mock_lib H [("limit", PInt 5)] "expand" (PBool true))).
  reflexivity.
Defined.

Lemma get_by_name_first_exact_match_witness :
  fst (get_accessory_by_name mock_lib mock_api "A" [])
  = Ret (PDict [("name", PStr "A")]) /\
  fst (get_accessory_by_name mock_lib mock_api "Z" []) = Ret PNone.
Proof.
  pose proof (Forall_inv (get_by_name_first_exact_match mock_lib)) as H.
  split.
  - destruct (H mock_api "A" []) as [r [_ Hspec]].
    destruct (Hspec _ _ eq_refl eq_refl) as [Hfirst _].
    apply (Hfirst [] _ [PDict [("name", PStr "Ab")]]);
      [reflexivity | constructor |].
    exists (PStr "A"). split; reflexivity.
  - destruct (H mock_api "Z" []) as [r [_ Hspec]].
    destruct (Hspec _ _ eq_refl eq_refl) as [_ [Hnone _]].
    apply Hnone.
    repeat constructor; eexists; split; reflexivity.
Defined.

(** C4 (as stated) fails: [get_manufacturers(search="Dell")] sends the
    mapping it built, so the GET carries [{"search": "Dell"}]. *)
Lemma get_manufacturers_transmits_search :
  snd (get_manufacturers mock_lib mock_api (PStr "Dell") [])
  = [mkRequest GET "https://develop.snipeitapp.com/api/v1/manufacturers"
       (Some (qq "{`search`: `Dell`}")) None]
  /\ ~ null_params (get_manufacturers mock_lib).
Proof.
  split; [reflexivity|].
  intros H.
  specialize (H mock_api (PStr "Dell") [] _ eq_refl). discriminate H.
Qed.

Lemma search_transmission_witness :
  none_or str_t (PStr "Dell") = true /\ "Dell" <> "" /\
  get_companies mock_lib mock_api (PStr "Dell") []
  = (Ret rows_A_Ab,
     [mkRequest GET "https://develop.snipeitapp.com/api/v1/companies"
        None None]) /\
  get_manufacturers mock_lib mock_api (PStr "Dell") []
  = (Ret rows_A_Ab,
     [mkRequest GET "https://develop.snipeitapp.com/api/v1/manufacturers"
        (Some (qq "{`search`: `Dell`}")) None]).
Proof.
  destruct (search_transmission mock_lib mock_api) as [Hc [_ [_ Hm]]].
  split; [reflexivity|]. split; [discriminate|]. split.
  - apply (Hc (PStr "Dell") []). reflexivity.
  - apply (Hm "Dell" []). discriminate.
Defined.

Lemma update_status_label_flags_witness :
  none_or int_t (PInt 5) = true /\ none_or str_t (PStr "X") = true /\
  In "pending" ["deployable"; "pending"; "archived"] /\
  update_status_label mock_lib mock_api (PInt 5) (PStr "X") (PStr "pending") []
  = (Ret rows_A_Ab,
     [mkRequest POST "https://develop.snipeitapp.com/api/v1/statuslabels/5"
        None
        (Some (qq "{`name`: `X`, `deployable`: false, `pending`: true, `archived`: false}"))]).
Proof.
  assert (H : In "pending" ["deployable"; "pending"; "archived"])
    by (simpl; auto).
  split; [reflexivity|]. split; [reflexivity|]. split; [exact H|].
  exact (proj2 (proj1 (update_status_label_flags mock_lib mock_api [])
                  (PInt 5) (PStr "X") "pending" eq_refl eq_refl H)).
Defined.

Lemma get_accessories_passes_str_witness :
  none_or int_t (PInt 5) = true /\
  none_or str_t (PStr "pc") = true /\
  none_or_in sort_columns (PStr "name") = true /\
  none_or_in order_values (PStr "asc") = true /\
  none_or bool_t (PBool true) = true /\
  get_accessories mock_lib mock_api (PInt 5) PNone (PStr "pc") PNone
    (PStr "name") (PStr "asc") (PBool true) []
  = (Ret rows_A_Ab,
     [mkRequest GET "https://develop.snipeitapp.com/api/v1/accessories"
        (Some (qq "`{'limit': 5, 'search': 'pc', 'sort': 'name', 'order': 'asc', 'expand': 'true'}`"))
        None]).
Proof.
  repeat (split; [reflexivity|]).
  exact (proj2 (proj1 (get_accessories_passes_str mock_lib mock_api)
                  (PInt 5) PNone (PStr "pc") PNone (PStr "name") (PStr "asc")
                  (PBool true) [] eq_refl eq_refl eq_refl eq_refl eq_refl
                  eq_refl eq_refl)).
Defined.

(** ** Closed instances of the further properties *)

Lemma precondition_list_elementwise_witness :
  _precondition_list mock_lib (PList [PStr "a"; PNone]) (Some "str") []
  = (Ret tt, []) /\
  _precondition_list mock_lib (PList [PStr "a"; PInt 7; PBool true])
    (Some "str") []
  = (Raise (ValueError "7 is not a string!"), []).
Proof.
  destruct (precondition_list_elementwise mock_lib []) as [H1 [H2 _]].
  split.
  - apply H1. repeat constructor.
  - apply (H2 [PStr "a"] (PInt 7) [PBool true]);
      [repeat constructor | reflexivity].
Defined.

Lemma add_to_dict_lookup_witness :
  "limit" <> "offset" /\
  dict_get (_add_to_dict mock_lib [("limit", PInt 5)] "offset" (PInt 10)) "limit"
  = Some (PInt 5) /\
  dict_get (_add_to_dict mock_lib [("limit", PInt 5)] "offset" (PInt 10)) "offset"
  = Some (PInt 10).
Proof.
  destruct (add_to_dict_lookup mock_lib [("limit", PInt 5)] "offset" (PInt 10))
    as [Hother [_ [_ Hsame]]].
  assert (Hne : "limit" <> "offset") by discriminate.
  split; [exact Hne|]. split.
  - rewrite (Hother "limit" Hne). reflexivity.
  - apply Hsame; [reflexivity | reflexivity | discriminate].
Defined.

Lemma payload_has_no_falsy_field_witness :
  let d := _add_to_dict mock_lib
             (_add_to_dict mock_lib [] "limit" (PInt 0)) "search" (PStr "pc") in
  dict_get d "search" = Some (PStr "pc") /\
  clean d /\ ("search" <> "" /\ truthy (PStr "pc") = true).
Proof.
  cbv zeta.
  destruct (proj2 (payload_has_no_falsy_field mock_lib)
              [("limit", PInt 0); ("search", PStr "pc")]) as [Hc Hf].
  split; [reflexivity|]. split; [exact Hc|].
  apply (Hf "search" (PStr "pc")). reflexivity.
Defined.

Lemma update_with_nothing_to_change_witness :
  none_or int_t (PInt 7) = true /\
  update_location mock_lib mock_api (PInt 7) PNone PNone PNone PNone PNone
    PNone PNone []
  = (Ret rows_A_Ab,
     [mkRequest PATCH "https://develop.snipeitapp.com/api/v1/locations/7"
        None None]).
Proof.
  split; [reflexivity|].
  exact (proj1 (proj2 (proj2
           (update_with_nothing_to_change mock_lib mock_api (PInt 7) []
              eq_refl)))).
Defined.

Lemma get_by_name_failures_witness :
  fst (get_accessory_by_name mock_lib
         (api_answering (PDict [("total", PInt 0)])) "A" [])
  = Raise (KeyError "rows") /\
  fst (get_accessory_by_name mock_lib
         (api_answering
            (PDict [("rows", PList [PDict [("id", PInt 1)];
                                    PDict [("name", PStr "A")]])])) "A" [])
  = Raise (KeyError "name").
Proof.
  pose proof (Forall_inv (get_by_name_failures mock_lib)) as H.
  split.
  - destruct (H (api_answering (PDict [("total", PInt 0)])) "A" [])
      as [r [_ [_ [Hrows _]]]].
    apply (Hrows _ eq_refl). reflexivity.
  - destruct (H (api_answering
                   (PDict [("rows", PList [PDict [("id", PInt 1)];
                                           PDict [("name", PStr "A")]])]))
                "A" []) as [r [_ [_ [_ Hrow]]]].
    destruct (Hrow _ _ [] (PDict [("id", PInt 1)]) [PDict [("name", PStr "A")]]
                eq_refl eq_refl eq_refl (Forall_nil _)) as [Hname _].
    apply Hname. eexists. split; reflexivity.
Defined.

Lemma user_password_and_confirmation_witness :
  let r := mkRequest POST "https://develop.snipeitapp.com/api/v1/users" None
             (Some (qq "{`first_name`: `Ann`, `username`: `ann`, `password`: `pw`, `password_confirmation`: `pw`}")) in
  snd (create_user mock_lib mock_api (PStr "Ann") (PStr "ann") (PStr "pw")
         PNone PNone PNone PNone PNone PNone PNone PNone PNone PNone PNone
         PNone PNone PNone []) = [r] /\
  exists d : dict,
    req_data r = Some (json_dumps mock_lib (PDict d)) /\
    dict_get d "password" = Some (PStr "pw") /\
    dict_get d "password_confirmation" = Some (PStr "pw").
Proof.
  cbv zeta. split; [reflexivity|].
  apply (proj1 (user_password_and_confirmation mock_lib mock_api)
           (PStr "Ann") (PStr "ann") (PStr "pw") PNone PNone PNone PNone
           PNone PNone PNone PNone PNone PNone PNone PNone PNone PNone [] _
           eq_refl).
Defined.

Lemma status_label_without_type_witness :
  none_or int_t (PInt 5) = true /\ none_or str_t (PStr "X") = true /\
  update_status_label mock_lib mock_api (PInt 5) (PStr "X") PNone []
  = (Ret rows_A_Ab,
     [mkRequest POST "https://develop.snipeitapp.com/api/v1/statuslabels/5"
        None
        (Some (qq "{`name`: `X`, `deployable`: false, `pending`: false, `archived`: false}"))]).
Proof.
  split; [reflexivity|]. split; [reflexivity|].
  exact (proj1 (status_label_without_type mock_lib mock_api (PInt 5) (PStr "X")
                  [] eq_refl eq_refl)).
Defined.

Lemma required_arguments_may_be_None_witness :
  none_or int_t (PInt 2) = true /\ none_or int_t PNone = true /\
  create_asset mock_lib mock_api (PInt 2) PNone PNone PNone []
  = (Ret rows_A_Ab,
     [mkRequest POST "https://develop.snipeitapp.com/api/v1/hardware" None
        (Some (qq "{`status_id`: 2, `model_id`: null}"))]).
Proof.
  split; [reflexivity|]. split; [reflexivity|].
  exact (proj1 (required_arguments_may_be_None mock_lib mock_api [])
           (PInt 2) PNone eq_refl eq_refl).
Defined.

Lemma update_asset_bad_last_checkout_witness :
  none_or int_t (PInt 1) = true /\ none_or str_t PNone = true /\
  none_or str_t (PInt 20240115) = false /\
  strptime_ymd mock_lib "yesterday" = Some "does not match format" /\
  update_asset mock_lib mock_api (PInt 1) PNone PNone PNone PNone
    (PInt 20240115) PNone PNone PNone PNone PNone PNone PNone PNone PNone
    PNone PNone []
  = (Raise TypeError, []) /\
  update_asset mock_lib mock_api (PInt 1) PNone PNone PNone PNone
    (PStr "yesterday") PNone PNone PNone PNone PNone PNone PNone PNone PNone
    PNone PNone []
  = (Raise (ValueError "yesterday is not a date!"), []).
Proof.
  do 4 (split; [reflexivity|]). split.
  - exact (proj1 (update_asset_bad_last_checkout mock_lib mock_api (PInt 1)
                    PNone PNone PNone PNone (PInt 20240115) PNone PNone PNone
                    PNone PNone PNone PNone PNone PNone PNone PNone []
                    eq_refl eq_refl eq_refl eq_refl eq_refl) eq_refl).
  - exact (proj2 (update_asset_bad_last_checkout mock_lib mock_api (PInt 1)
                    PNone PNone PNone PNone (PStr "yesterday") PNone PNone
                    PNone PNone PNone PNone PNone PNone PNone PNone PNone []
                    eq_refl eq_refl eq_refl eq_refl eq_refl)
             "yesterday" "does not match format" eq_refl eq_refl).
Defined.
